(** * store_manager.py: catalog, ledger, lookup and checkout

    A shallow embedding of the inventory core of [store_manager.py]:
    the product sheet, the transaction and stock-log sheets of
    [inventory.xlsx], the lookup functions, [update_stock_by_barcode], the
    POS checkout block and the add / edit / delete blocks of the catalog
    editor.  Python strings are Rocq [string]s holding their UTF-8 bytes,
    Python [int]s are [Z], Python floats are primitive binary64 floats. *)

From Stdlib Require Import String Ascii List ZArith NArith Bool Lia.
From Stdlib Require Import PrimFloat SpecFloat FloatOps Uint63.
Import ListNotations.
Open Scope string_scope.
Open Scope Z_scope.

(** ** Python's [str.strip()] on UTF-8 bytes *)

(** Single-byte whitespace of [str.isspace]: \t \n \v \f \r, \x1c-\x1f, space. *)
Definition ws_byte (c : ascii) : bool :=
  let n := N_of_ascii c in
  ((9 <=? n) && (n <=? 13))%N || ((28 <=? n) && (n <=? 32))%N.

Definition byte_is (c : ascii) (n : N) : bool := (N_of_ascii c =? n)%N.

(** Number of bytes of the whitespace character at the front of [l]
    (0 if there is none): the ASCII ones and the UTF-8 encodings of
    U+0085, U+00A0, U+1680, U+2000..U+200A, U+2028, U+2029, U+202F, U+205F,
    U+3000. *)
Definition lead_ws (l : list ascii) : nat :=
  match l with
  | c :: r =>
      if ws_byte c then 1%nat
      else match r with
           | d :: r' =>
               if byte_is c 194 && (byte_is d 133 || byte_is d 160) then 2%nat
               else match r' with
                    | e :: _ =>
                        let n := N_of_ascii e in
                        if (byte_is c 225 && byte_is d 154 && byte_is e 128)
                           || (byte_is c 226 && byte_is d 128
                               && (((128 <=? n) && (n <=? 138))%N
                                   || byte_is e 168 || byte_is e 169
                                   || byte_is e 175))
                           || (byte_is c 226 && byte_is d 129 && byte_is e 159)
                           || (byte_is c 227 && byte_is d 128 && byte_is e 128)
                        then 3%nat else 0%nat
                    | [] => 0%nat
                    end
           | [] => 0%nat
           end
  | [] => 0%nat
  end.

(** The same characters recognised at the end of a reversed byte list. *)
Definition trail_ws (l : list ascii) : nat :=
  match l with
  | c :: r =>
      if ws_byte c then 1%nat
      else match r with
           | d :: r' =>
               if byte_is d 194 && (byte_is c 133 || byte_is c 160) then 2%nat
               else match r' with
                    | e :: _ =>
                        let n := N_of_ascii c in
                        if (byte_is e 225 && byte_is d 154 && byte_is c 128)
                           || (byte_is e 226 && byte_is d 128
                               && (((128 <=? n) && (n <=? 138))%N
                                   || byte_is c 168 || byte_is c 169
                                   || byte_is c 175))
                           || (byte_is e 226 && byte_is d 129 && byte_is c 159)
                           || (byte_is e 227 && byte_is d 128 && byte_is c 128)
                        then 3%nat else 0%nat
                    | [] => 0%nat
                    end
           | [] => 0%nat
           end
  | [] => 0%nat
  end.

Fixpoint drop_ws (ws : list ascii -> nat) (fuel : nat) (l : list ascii) : list ascii :=
  match fuel with
  | O => l
  | S f => match ws l with
           | O => l
           | k => drop_ws ws f (skipn k l)
           end
  end.

(** [s.strip()] *)
Definition py_strip (s : string) : string :=
  let l := list_ascii_of_string s in
  let l1 := drop_ws lead_ws (length l) l in
  let l2 := rev (drop_ws trail_ws (length l1) (rev l1)) in
  string_of_list_ascii l2.

(** ** Data model *)

(** One row of the product sheet, with the internal column names of
    [ENGLISH_HEADERS_ORDER].  Text cells read with [dtype=str] are a string
    or missing ([None]); [barcode] and [id] are filled with [""];
    [stock] and [bulk_quantity] are [int]s; the three prices are floats
    ([nan] when missing). *)
Record product := mkProduct {
  category : option string;
  id : string;
  name : option string;
  barcode : string;
  bulk_price : float;
  bulk_quantity : Z;
  purchase_price : float;
  price : float;
  profit_margin : option string;
  stock : Z;
  location : option string;
  supplier : option string;
  image_path : option string;
  notes : option string
}.

(** A row of the DataFrame returned by [load_products]: the sheet columns and
    the extra [expiry_date] column it adds (absent from the sheet, [None]). *)
Record row := mkRow { row_p : product; expiry_date : option string }.

(** A line item of the session cart, as built by the "add to cart" button. *)
Record cart_item := mkItem {
  it_id : string;
  it_barcode : string;
  it_name : string;
  it_price : float;
  it_qty : Z;
  it_subtotal : float
}.

(** A row of the [transactions] sheet ([items] is [json.dumps] of the cart,
    kept here as the cart itself). *)
Record transaction := mkTxn {
  txn_id : string;
  txn_datetime : string;
  items : list cart_item;
  total : float;
  paid : float;
  change : float;
  txn_operator : string;
  txn_note : string
}.

(** A row of the [stock_log] sheet. *)
Record stock_log := mkLog {
  log_id : string;
  log_datetime : string;
  log_barcode : string;
  log_name : option string;
  log_change : Z;
  before_stock : Z;
  after_stock : Z;
  log_type : string;
  log_operator : string;
  log_note : string
}.

(** The world a run of the script sees: the three sheets of
    [inventory.xlsx], the session cart, the clock and the [uuid4] source
    ([uuid_gen n] is the [n]-th value drawn). *)
Record world := mkWorld {
  w_products : list product;
  w_transactions : list transaction;
  w_stock_log : list stock_log;
  w_cart : list cart_item;
  w_now : string;
  w_uuid_gen : nat -> string;
  w_uuid_next : nat
}.

(** ** A state-and-exception monad for the script's effects *)

Inductive py_exc :=
| TypeError (msg : string)
| OSError (msg : string)
| StreamlitAPIException (msg : string).

(** A run ends normally or with an exception; the file written so far
    stays written in both cases. *)
Inductive outcome (A : Type) :=
| Ok (a : A) (w : world)
| Exc (e : py_exc) (w : world).
Arguments Ok {A} a w.
Arguments Exc {A} e w.

Definition M (A : Type) := world -> outcome A.

Definition ret {A} (a : A) : M A := fun w => Ok a w.
Definition bind {A B} (m : M A) (k : A -> M B) : M B :=
  fun w => match m w with
           | Ok a w' => k a w'
           | Exc e w' => Exc e w'
           end.
Definition raise {A} (e : py_exc) : M A := fun w => Exc e w.
Definition gets {A} (f : world -> A) : M A := fun w => Ok (f w) w.
Definition modify (f : world -> world) : M unit := fun w => Ok tt (f w).

Notation "x <- m ;; k" := (bind m (fun x => k))
  (at level 61, m at next level, right associativity).
Notation "m ;;; k" := (bind m (fun _ => k))
  (at level 61, right associativity).

Definition final_world {A} (o : outcome A) : world :=
  match o with Ok _ w => w | Exc _ w => w end.

Definition set_products (ps : list product) (w : world) : world :=
  mkWorld ps (w_transactions w) (w_stock_log w) (w_cart w) (w_now w)
          (w_uuid_gen w) (w_uuid_next w).
Definition set_transactions (ts : list transaction) (w : world) : world :=
  mkWorld (w_products w) ts (w_stock_log w) (w_cart w) (w_now w)
          (w_uuid_gen w) (w_uuid_next w).
Definition set_stock_log (ls : list stock_log) (w : world) : world :=
  mkWorld (w_products w) (w_transactions w) ls (w_cart w) (w_now w)
          (w_uuid_gen w) (w_uuid_next w).
Definition set_cart (c : list cart_item) (w : world) : world :=
  mkWorld (w_products w) (w_transactions w) (w_stock_log w) c (w_now w)
          (w_uuid_gen w) (w_uuid_next w).

(** [str(uuid.uuid4())] *)
Definition next_uuid (w : world) : world :=
  mkWorld (w_products w) (w_transactions w) (w_stock_log w) (w_cart w)
          (w_now w) (w_uuid_gen w) (S (w_uuid_next w)).

Definition uuid4 : M string :=
  fun w => Ok (w_uuid_gen w (w_uuid_next w)) (next_uuid w).

(** [datetime.now().isoformat(sep=" ", timespec="seconds")] *)
Definition datetime_now : M string := gets w_now.

(** ** Catalog Store and Ledger Store *)


(** The sheets as this script writes them: [save_products] writes the
    product rows under the localized headers of [CHINESE_HEADERS_ORDER]
    (which has no [expiry_date]), and [load_products] maps them back to the
    internal names and adds an empty [expiry_date] column.  The round trip
    is taken as lossless; it is not for text that [read_excel] reads back
    as missing ([STR_NA_VALUES], also the empty text), and statements that
    depend on a saved text value coming back assume it is none of these. *)
Definition load_products : M (list row) :=
  gets (fun w => map (fun p => mkRow p None) (w_products w)).

(** [save_products(df)]: the product sheet is rewritten, the transaction and
    stock-log sheets are read back and rewritten unchanged. *)
Definition save_products (df : list row) : M unit :=
  modify (set_products (map row_p df)).

(** [append_transaction(tx_record)]: the product sheet is re-loaded and
    written back as it was. *)
Definition append_transaction (r : transaction) : M unit :=
  modify (fun w => set_transactions (w_transactions w ++ [r]) w).

(** [append_stock_log(log_record)] *)
Definition append_stock_log (r : stock_log) : M unit :=
  modify (fun w => set_stock_log (w_stock_log w ++ [r]) w).

(** ** Lookup Engine *)

(** First position satisfying [f]: [df.index[mask][0]] on a RangeIndex. *)
Fixpoint first_index {A} (f : A -> bool) (l : list A) : option nat :=
  match l with
  | [] => None
  | x :: r => if f x then Some O
              else match first_index f r with
                   | Some i => Some (S i)
                   | None => None
                   end
  end.

Fixpoint update_nth {A} (n : nat) (f : A -> A) (l : list A) : list A :=
  match l, n with
  | [], _ => []
  | x :: r, O => f x :: r
  | x :: r, S n' => x :: update_nth n' f r
  end.

(** [search_by_barcode(barcode, products_df)]: the loaded frame always has a
    [barcode] column, so the "column missing" branch is not reachable. *)
Definition search_by_barcode (code : string) (products_df : list row) : list row :=
  let b := py_strip code in
  if String.eqb b "" then []
  else filter (fun r => String.eqb (barcode (row_p r)) b) products_df.

(** ** Stock Mutator *)

(** Messages of [update_stock_by_barcode]. *)
Definition msg_not_found : string := "未找到条码对应商品".
Definition msg_updated : string := "更新成功".

(** [df.at[i, "stock"] = s] *)
Definition with_stock (p : product) (s : Z) : product :=
  mkProduct (category p) (id p) (name p) (barcode p) (bulk_price p)
            (bulk_quantity p) (purchase_price p) (price p)
            (profit_margin p) s (location p) (supplier p)
            (image_path p) (notes p).

Definition set_row_stock (r : row) (s : Z) : row :=
  mkRow (with_stock (row_p r) s) (expiry_date r).

(** [df.at[i]]: [DataFrame.at] is a scalar accessor taking a (row, column)
    pair.  Given the row label alone, pandas turns the key into [(i,)] and
    calls [DataFrame._get_value(i)] without its column argument, which
    raises [TypeError]. *)
Definition df_at (df : list row) (i : nat) : M row :=
  raise (TypeError "_get_value() missing 1 required positional argument: 'col'").

(** [update_stock_by_barcode(barcode, delta, operator, typ, note)];
    [int(delta)] is [delta] since every caller passes an [int]. *)
Definition update_stock_by_barcode (code : string) (delta : Z)
    (operator typ note : string) : M (bool * string) :=
  df <- load_products ;;
  now <- datetime_now ;;
  match first_index (fun r => String.eqb (barcode (row_p r)) code) df with
  | None => ret (false, msg_not_found)
  | Some i =>
      let before := match nth_error df i with
                    | Some r => stock (row_p r)
                    | None => 0
                    end in
      let after := before + delta in
      let df' := update_nth i (fun r => set_row_stock r after) df in
      save_products df' ;;;
      lid <- uuid4 ;;
      r <- df_at df' i ;;
      append_stock_log (mkLog lid now code (name (row_p r)) delta before after
                              typ operator note) ;;;
      ret (true, msg_updated)
  end.

(** ** Checkout Orchestrator: the POS checkout button *)

Definition op_cashier : string := "收银".
Definition note_pos : string := "POS 结账".

(** [f'{it["name"]}: {msg}'] *)
Definition fail_message (it : cart_item) (msg : string) : string :=
  it_name it ++ ": " ++ msg.

(** The [for it in st.session_state.cart] loop. *)
Fixpoint checkout_loop (cart : list cart_item) (success : bool)
    (messages : list string) : M (bool * list string) :=
  match cart with
  | [] => ret (success, messages)
  | it :: rest =>
      r <- update_stock_by_barcode (it_barcode it) (- it_qty it) op_cashier
                                   "sale" note_pos ;;
      if fst r then checkout_loop rest success messages
      else checkout_loop rest false (messages ++ [fail_message it (snd r)])
  end.

Inductive checkout_result :=
| Completed (t : transaction)
| PartiallyFailed (messages : list string).

(** The checkout button: [total_amount] is [cart_df["subtotal"].sum()] and
    [paid_amount] the amount entered, both computed before the button. *)
Definition checkout (total_amount paid_amount : float) : M checkout_result :=
  cart <- gets w_cart ;;
  r <- checkout_loop cart true [] ;;
  if fst r then
    tid <- uuid4 ;;
    now <- datetime_now ;;
    let txn := mkTxn tid now cart total_amount paid_amount
                     (paid_amount - total_amount)%float op_cashier "" in
    append_transaction txn ;;;
    modify (set_cart []) ;;;
    ret (Completed txn)
  else ret (PartiallyFailed (snd r)).

(** ** Lookup by name *)

(** [df.head(n)]: [df.iloc[:n]], a negative [n] drops the last [-n] rows. *)
Definition df_head {A} (n : Z) (l : list A) : list A :=
  if 0 <=? n then firstn (Z.to_nat n) l
  else firstn (length l - Z.to_nat (- n)) l.

(** [df["name"].astype(str)] on a cell read as missing ([nan]). *)
Definition name_str (o : option string) : string :=
  match o with Some s => s | None => "nan" end.

Section SearchByName.

(** The optional [rapidfuzz] import. *)
Variable RAPIDFUZZ_AVAILABLE : bool.
(** [Series.str.contains(query, case=False, na=False)] on one cell:
    [str_contains query text]. *)
Variable str_contains : string -> string -> bool.
(** [fuzz.WRatio(query, choice)], the similarity score. *)
Variable WRatio : string -> string -> Z.

(** Insert into a list sorted by decreasing score, after equal scores. *)
Fixpoint insert_by_score (q x : string) (l : list string) : list string :=
  match l with
  | [] => [x]
  | y :: r => if WRatio q y <? WRatio q x then x :: y :: r
              else y :: insert_by_score q x r
  end.

(** [[r[0] for r in process.extract(query, choices, scorer=fuzz.WRatio,
    limit=limit)]]: the choices by decreasing score (ties in input
    order), the first [limit] of them (none for a negative limit). *)
Definition process_extract (q : string) (choices : list string) (limit : Z)
    : list string :=
  firstn (Z.to_nat limit)
         (fold_left (fun acc x => insert_by_score q x acc) choices []).

(** [search_by_name(query, products_df, limit)] *)
Definition search_by_name (query : string) (products_df : list row) (limit : Z)
    : list row :=
  let q := py_strip query in
  if String.eqb q "" then []
  else
    let subs := filter (fun r => str_contains q (name_str (name (row_p r))))
                       products_df in
    if (1 <=? Z.of_nat (length subs)) || negb RAPIDFUZZ_AVAILABLE
    then df_head limit subs
    else
      let choices := map (fun r => name_str (name (row_p r))) products_df in
      let names := process_extract q choices limit in
      filter (fun r => match name (row_p r) with
                       | Some s => existsb (String.eqb s) names
                       | None => false
                       end) products_df.

End SearchByName.

(** Case-insensitive substring test on ASCII text: what
    [str.contains(query, case=False)] computes for a query without regular
    expression metacharacters. *)
Definition lower_ascii (c : ascii) : ascii :=
  let n := N_of_ascii c in
  if ((65 <=? n) && (n <=? 90))%N then ascii_of_N (n + 32) else c.

Definition lower (s : string) : string :=
  string_of_list_ascii (map lower_ascii (list_ascii_of_string s)).

Definition ci_contains (q text : string) : bool :=
  match String.index 0 (lower q) (lower text) with
  | Some _ => true
  | None => false
  end.

(** ** Catalog Editor *)

Definition note_initial : string := "新建商品初始库存".
Definition op_edit : string := "库存编辑".
Definition note_manual : string := "人工修改库存".

(** The "add product" form, submitted with its inputs. *)
Definition add_product (name0 barcode0 category0 : string)
    (price0 purchase_price0 bulk_price0 : float) (bulk_quantity0 : Z)
    (location0 : string) (stock0 : Z) (notes0 : string) : M unit :=
  df <- load_products ;;
  nid <- uuid4 ;;
  let new := mkRow (mkProduct (Some (py_strip category0)) nid
                              (Some (py_strip name0)) (py_strip barcode0)
                              bulk_price0 bulk_quantity0 purchase_price0 price0
                              None stock0 (Some (py_strip location0))
                              (Some "") (Some "") (Some (py_strip notes0)))
                   (Some "") in
  save_products (df ++ [new]) ;;;
  if (stock0 >? 0) && negb (String.eqb (barcode (row_p new)) "") then
    lid <- uuid4 ;;
    now <- datetime_now ;;
    append_stock_log (mkLog lid now (barcode (row_p new)) (name (row_p new))
                            stock0 0 stock0 "in_initial" "system" note_initial)
  else ret tt.

Definition edit_row (name2 category2 : string)
    (price2 purchase_price2 bulk_price2 : float) (bulk_quantity2 : Z)
    (location2 : string) (stock2 : Z) (notes2 : string) (r : row) : row :=
  let p := row_p r in
  mkRow (mkProduct (Some category2) (id p) (Some name2) (barcode p)
                   bulk_price2 bulk_quantity2 purchase_price2 price2
                   (profit_margin p) stock2 (Some location2) (supplier p)
                   (image_path p) (Some notes2))
        (expiry_date r).

(** The "save changes" button of the edit form; [false] when no row has
    the barcode ("未能定位要修改的商品"). *)
Definition update_product (e_barcode name2 category2 : string)
    (price2 purchase_price2 bulk_price2 : float) (bulk_quantity2 : Z)
    (location2 : string) (stock2 : Z) (notes2 : string) : M bool :=
  df_all <- load_products ;;
  match first_index (fun r => String.eqb (barcode (row_p r)) e_barcode) df_all with
  | None => ret false
  | Some i =>
      let before_stock := match nth_error df_all i with
                          | Some r => stock (row_p r)
                          | None => 0
                          end in
      save_products (update_nth i (edit_row name2 category2 price2
                       purchase_price2 bulk_price2 bulk_quantity2 location2
                       stock2 notes2) df_all) ;;;
      if negb (before_stock =? stock2) then
        lid <- uuid4 ;;
        now <- datetime_now ;;
        append_stock_log (mkLog lid now e_barcode (Some name2)
                                (stock2 - before_stock) before_stock stock2
                                "adjust_manual" op_edit note_manual) ;;;
        ret true
      else ret true
  end.

(** The "delete product" button of the edit form. *)
Definition delete_product (e_barcode : string) : M unit :=
  df_all <- load_products ;;
  save_products (filter (fun r => negb (String.eqb (barcode (row_p r)) e_barcode))
                        df_all).

(** ** Catalog Store: [load_products] on an arbitrary workbook *)

(** Reading the product sheet itself: either label set, missing columns,
    and the numeric coercions. *)
Module CatalogLoad.

(** [COLUMN_MAP], localized label to internal name, in its order. *)
Definition COLUMN_MAP : list (string * string) :=
  [("分类", "category"); ("序号", "id"); ("商品名称", "name");
   ("条形码", "barcode"); ("1件箱套条包盒价格", "bulk_price");
   ("1件箱套条包盒数量", "bulk_quantity");
   ("1个单位进货价格", "purchase_price"); ("销售价", "price");
   ("利润率", "profit_margin"); ("库存", "stock"); ("位置", "location");
   ("供应商", "supplier"); ("图片路径", "image_path"); ("备注", "notes")].

Definition CHINESE_HEADERS_ORDER : list string := map fst COLUMN_MAP.
Definition ENGLISH_HEADERS_ORDER : list string := map snd COLUMN_MAP.

(** A cell of the sheet read with [dtype=str]: text or empty ([NaN]). *)
Inductive raw_cell := RNaN | RStr (s : string).

(** The product sheet chosen by [detect_product_sheet], column by column. *)
Record raw_sheet := mkSheet {
  raw_columns : list (string * list raw_cell);
  raw_nrows : nat
}.

(** The store on disk: [fs_file] is [None] when [inventory.xlsx] does not
    exist, [Some None] when its product sheet cannot be read or parsed. *)
Record fs := mkFs {
  fs_file : option (option raw_sheet);
  fs_writable : bool
}.

(** A DataFrame cell. *)
Inductive cell := CNaN | CNone | CStr (s : string) | CInt (z : Z) | CFloat (f : float).

Definition frame := list (string * list cell).

Inductive result (A : Type) := Ret (a : A) | Raise (e : py_exc).
Arguments Ret {A} a.
Arguments Raise {A} e.

(** The two seed products of [ensure_inventory_file], as read back. *)
Definition sample_sheet (id1 id2 : string) : raw_sheet :=
  mkSheet
    [("分类", [RStr "饮料"; RStr "食品"]);
     ("序号", [RStr id1; RStr id2]);
     ("商品名称", [RStr "矿泉水 500ml"; RStr "方便面"]);
     ("条形码", [RStr "6901234567890"; RStr "6909876543210"]);
     ("1件箱套条包盒价格", [RStr "20"; RStr "30"]);
     ("1件箱套条包盒数量", [RStr "24"; RStr "20"]);
     ("1个单位进货价格", [RStr "1"; RStr "1.5"]);
     ("销售价", [RStr "2.5"; RStr "4"]);
     ("利润率", [RNaN; RNaN]);
     ("库存", [RStr "50"; RStr "30"]);
     ("位置", [RStr "货架 A1"; RStr "货架 B2"]);
     ("供应商", [RNaN; RNaN]);
     ("图片路径", [RNaN; RNaN]);
     ("备注", [RNaN; RNaN])] 2.

(** [ensure_inventory_file()]: creating the file can fail with [OSError]
    (e.g. a read-only directory); the ids are the two [uuid4] values. *)
Definition ensure_inventory_file (id1 id2 : string) (f : fs) : result fs :=
  match fs_file f with
  | None => if fs_writable f
            then Ret (mkFs (Some (Some (sample_sheet id1 id2))) (fs_writable f))
            else Raise (OSError "Permission denied: 'inventory.xlsx'")
  | Some _ => Ret f
  end.

Definition of_raw (c : raw_cell) : cell :=
  match c with RNaN => CNaN | RStr s => CStr s end.

Fixpoint has_col (c : string) (df : frame) : bool :=
  match df with
  | [] => false
  | (c', _) :: r => String.eqb c c' || has_col c r
  end.

Fixpoint get_col (c : string) (df : frame) : list cell :=
  match df with
  | [] => []
  | (c', v) :: r => if String.eqb c c' then v else get_col c r
  end.

Fixpoint set_col (c : string) (v : list cell) (df : frame) : frame :=
  match df with
  | [] => [(c, v)]
  | (c', v') :: r => if String.eqb c c' then (c', v) :: r
                     else (c', v') :: set_col c v r
  end.

(** [df.rename(columns=COLUMN_MAP)] on one label. *)
Definition rename_label (c : string) : string :=
  match find (fun kv => String.eqb (fst kv) c) COLUMN_MAP with
  | Some (_, en) => en
  | None => c
  end.

(** Steps up to "确保常用内部列存在": rename when any localized label is
    present, then add every missing internal column (and [expiry_date])
    filled with [None]. *)
Definition normalized (sh : raw_sheet) : frame :=
  let df0 := map (fun kv => (fst kv, map of_raw (snd kv))) (raw_columns sh) in
  let raw_cols := map fst df0 in
  let df := if existsb (fun c => existsb (String.eqb c) raw_cols)
                       CHINESE_HEADERS_ORDER
            then map (fun kv => (rename_label (fst kv), snd kv)) df0
            else df0 in
  fold_left (fun df col => if has_col col df then df
                           else app df [(col, repeat CNone (raw_nrows sh))])
            (ENGLISH_HEADERS_ORDER ++ ["expiry_date"]) df.

(** [.fillna("").astype(str)] on text read with [dtype=str]. *)
Definition fill_str (c : cell) : cell :=
  match c with
  | CNaN | CNone => CStr ""
  | CStr s => CStr s
  | CInt z => CStr "" (* not produced before this step *)
  | CFloat _ => CStr ""
  end.

(** Truncation towards zero of a finite float, [int(x)] / [astype(int)].
    For [astype(int)] this agrees with numpy's cast below 2^63 in
    magnitude; beyond it the cast is platform-dependent, and the statements
    about loading keep to values below 2^53 (see [exact_num]). *)
Definition float_trunc (x : float) : Z :=
  match FloatOps.Prim2SF x with
  | SpecFloat.S754_finite s m e =>
      let z := if 0 <=? e then Z.shiftl (Zpos m) e
               else Z.shiftr (Zpos m) (- e) in
      if s then - z else z
  | _ => 0
  end.

Section Coerce.

(** [pd.to_numeric(errors="coerce")] on one text cell ([nan] when the text
    is not a number). *)
Variable to_numeric : string -> float.

Definition num_of (c : cell) : float :=
  match c with
  | CStr s => to_numeric s
  | CInt z => nan (* not produced before this step *)
  | _ => nan
  end.

(** [pd.to_numeric(col, errors="coerce").fillna(0).astype(int)], and the
    [except] branch setting the whole column to [0] when [astype(int)]
    raises on a non-finite value. *)
Definition int_column (cells : list cell) : list cell :=
  let xs := map (fun c => let x := num_of c in
                          if is_nan x then 0%float else x) cells in
  if forallb is_finite xs then map (fun x => CInt (float_trunc x)) xs
  else repeat (CInt 0) (length cells).

(** [pd.to_numeric(col, errors="coerce")] *)
Definition float_column (cells : list cell) : list cell :=
  map (fun c => CFloat (num_of c)) cells.

(** The body of the [try] of [load_products] after [read_excel]; this
    treats the column labels as distinct.  pandas renames duplicate headers
    on reading, but renaming can still make two labels equal (say "销售价"
    and "price" in one sheet); [df[col]] is then a frame, [pd.to_numeric]
    raises, and the statements about loading exclude that case. *)
Definition process (sh : raw_sheet) : frame :=
  let df := normalized sh in
  let df := set_col "barcode" (map fill_str (get_col "barcode" df)) df in
  let df := set_col "id" (map fill_str (get_col "id" df)) df in
  let df := set_col "stock" (int_column (get_col "stock" df)) df in
  let df := fold_left (fun df pc => set_col pc (float_column (get_col pc df)) df)
                      ["price"; "purchase_price"; "bulk_price"] df in
  set_col "bulk_quantity" (int_column (get_col "bulk_quantity" df)) df.

(** The [except] branch: an empty frame with the internal columns. *)
Definition empty_frame : frame :=
  map (fun c => (c, [])) (ENGLISH_HEADERS_ORDER ++ ["expiry_date"]).

(** [load_products()]: [ensure_inventory_file()] runs before the [try]. *)
Definition load_products (id1 id2 : string) (f : fs) : result frame * fs :=
  match ensure_inventory_file id1 id2 f with
  | Raise e => (Raise e, f)
  | Ret f' =>
      (Ret (match fs_file f' with
            | Some (Some sh) => process sh
            | _ => empty_frame
            end), f')
  end.

End Coerce.

(** A concrete [to_numeric] for evaluation: signed decimal literals with
    fewer than 16 digits, and [inf], [infinity], [nan] in any case, with
    surrounding whitespace; other text becomes [nan] (pandas also reads
    exponent notation, which no statement below uses). *)
Definition float_of_Z (z : Z) : float :=
  if z <? 0 then (- of_uint63 (Uint63.of_Z (- z)))%float
  else of_uint63 (Uint63.of_Z z).

Fixpoint take_digits (l : list ascii) (acc : Z) (n : nat) : Z * nat * list ascii :=
  match l with
  | c :: r =>
      let v := N_of_ascii c in
      if ((48 <=? v) && (v <=? 57))%N
      then take_digits r (acc * 10 + Z.of_N (v - 48)) (S n)
      else (acc, n, l)
  | [] => (acc, n, [])
  end.

Definition parse_unsigned (l : list ascii) : float :=
  match take_digits l 0 0 with
  | (m, n1, []) => if Nat.eqb n1 0 then nan else float_of_Z m
  | (m, n1, c :: r) =>
      if byte_is c 46 then
        match take_digits r m 0 with
        | (m2, n2, []) =>
            if Nat.eqb (n1 + n2) 0 then nan
            else (float_of_Z m2 / float_of_Z (10 ^ Z.of_nat n2))%float
        | _ => nan
        end
      else nan
  end.

Definition py_to_numeric (s : string) : float :=
  let t := lower (py_strip s) in
  if existsb (String.eqb t) ["inf"; "+inf"; "infinity"; "+infinity"] then infinity
  else if existsb (String.eqb t) ["-inf"; "-infinity"] then neg_infinity
  else if existsb (String.eqb t) ["nan"; "+nan"; "-nan"] then nan
  else match list_ascii_of_string t with
       | c :: r => if byte_is c 45 then (- parse_unsigned r)%float
                   else if byte_is c 43 then parse_unsigned r
                   else parse_unsigned (c :: r)
       | [] => nan
       end.

End CatalogLoad.

(** ** Statements: auxiliary definitions *)

(** The stock-log invariant of the spec. *)
Definition log_ok (l : stock_log) : Prop :=
  after_stock l = before_stock l + log_change l.

(** Every operation of the core that writes the store. *)
Inductive operation :=
| OpAdjustStock (code : string) (delta : Z) (operator typ note : string)
| OpAddProduct (name0 barcode0 category0 : string)
    (price0 purchase_price0 bulk_price0 : float) (bulk_quantity0 : Z)
    (location0 : string) (stock0 : Z) (notes0 : string)
| OpUpdateProduct (e_barcode name2 category2 : string)
    (price2 purchase_price2 bulk_price2 : float) (bulk_quantity2 : Z)
    (location2 : string) (stock2 : Z) (notes2 : string)
| OpDeleteProduct (e_barcode : string)
| OpCheckout (total_amount paid_amount : float).

Definition run_op (op : operation) : M unit :=
  match op with
  | OpAdjustStock c d o t n => update_stock_by_barcode c d o t n ;;; ret tt
  | OpAddProduct a b c p pp bp bq l s n => add_product a b c p pp bp bq l s n
  | OpUpdateProduct e a c p pp bp bq l s n =>
      update_product e a c p pp bp bq l s n ;;; ret tt
  | OpDeleteProduct e => delete_product e
  | OpCheckout t p => checkout t p ;;; ret tt
  end.

(** The catalog as [load_products] returns it. *)
Definition rows_of (ps : list product) : list row :=
  map (fun p => mkRow p None) ps.

(** The stock-log entry [add_product] writes for an initial stock. *)
Definition initial_log (w : world) (barcode0 name0 : string) (stock0 : Z) : stock_log :=
  mkLog (w_uuid_gen w (S (w_uuid_next w))) (w_now w) (py_strip barcode0)
        (Some (py_strip name0)) stock0 0 stock0 "in_initial" "system" note_initial.

(** The row [add_product] appends. *)
Definition added_product (w : world) (name0 barcode0 category0 : string)
    (price0 purchase_price0 bulk_price0 : float) (bulk_quantity0 : Z)
    (location0 : string) (stock0 : Z) (notes0 : string) : product :=
  mkProduct (Some (py_strip category0)) (w_uuid_gen w (w_uuid_next w))
            (Some (py_strip name0)) (py_strip barcode0) bulk_price0
            bulk_quantity0 purchase_price0 price0 None stock0
            (Some (py_strip location0)) (Some "") (Some "")
            (Some (py_strip notes0)).

(** The [TypeError] raised by [df.at[i]]. *)
Definition at_error : py_exc :=
  TypeError "_get_value() missing 1 required positional argument: 'col'".

(** Concrete stores for the statements below. *)
Definition water : product :=
  mkProduct (Some "饮料") "id-water" (Some "矿泉水 500ml") "6901234567890"
            20%float 24 1%float 2.5%float None 50 (Some "货架 A1")
            None None None.

Definition noodles : product :=
  mkProduct (Some "食品") "id-noodles" (Some "方便面") "6909876543210"
            30%float 20 1.5%float 4%float None 30 (Some "货架 B2")
            None None None.

(** Water listed twice under one barcode (stock 50 and 7). *)
Definition water_dup : product := with_stock water 7.

Definition uuids (n : nat) : string :=
  match n with
  | O => "uuid-0" | 1%nat => "uuid-1" | 2%nat => "uuid-2" | _ => "uuid-n"
  end.

Definition world_of (ps : list product) (cart : list cart_item) : world :=
  mkWorld ps [] [] cart "2026-10-18 12:00:00" uuids 0.

(** A cart line for [water], two units at 2.5. *)
Definition water_x2 : cart_item :=
  mkItem "id-water" "6901234567890" "矿泉水 500ml" 2.5%float 2 5%float.

(** A cart line whose product has since been deleted. *)
Definition ghost_x1 : cart_item :=
  mkItem "id-ghost" "0000000000000" "已删除商品" 1%float 1 1%float.

(** Two distinct products that carry the same name. *)
Definition apple_loose : product :=
  mkProduct (Some "水果") "id-apple-1" (Some "apple") "1000000000001"
            nan 0 nan 1%float None 10 None None None None.

Definition apple_boxed : product :=
  mkProduct (Some "水果") "id-apple-2" (Some "apple") "1000000000002"
            nan 0 nan 12%float None 3 None None None None.

Module CatalogLoadSpec.
Import CatalogLoad.

Definition is_text (c : cell) : Prop := exists s, c = CStr s.

(** [stock] / [bulk_quantity] after loading, as a statement: when every value
    parses to a number or to nothing, each becomes its truncation (nothing
    becomes 0); when some value parses to an infinity the whole column is 0. *)
Definition int_coerced (tn : string -> float) (raw : list cell) : list cell :=
  if forallb (fun c => is_nan (num_of tn c) || is_finite (num_of tn c)) raw
  then map (fun c => CInt (if is_nan (num_of tn c) then 0
                           else float_trunc (num_of tn c))) raw
  else repeat (CInt 0) (length raw).

(** A numeric cell the statements about loading cover: it parses to
    nothing, to an infinity, or to a number below 2^53 in magnitude.  There
    [pd.to_numeric] gives the exact value whether it keeps the column as
    [int64] (all values integer text) or as [float64], and [astype(int)]
    is in range. *)
Definition exact_num (tn : string -> float) (c : cell) : bool :=
  let x := num_of tn c in
  is_nan x || is_infinity x || (PrimFloat.abs x <? 9007199254740992)%float.

(** The cells of the five numeric columns of a sheet after renaming. *)
Definition numeric_cells (sh : raw_sheet) : list cell :=
  concat (map (fun c => get_col c (normalized sh))
              ["stock"; "bulk_quantity"; "price"; "purchase_price"; "bulk_price"]).

Definition localized_present (sh : raw_sheet) : bool :=
  existsb (fun c => existsb (String.eqb c) (map fst (raw_columns sh)))
          CHINESE_HEADERS_ORDER.

(** A product sheet whose stock column holds a valid value and [inf]. *)
Definition sheet_inf : raw_sheet :=
  mkSheet [("条形码", [RStr "6901234567890"; RStr "6909876543210"]);
           ("库存", [RStr "5"; RStr "inf"])] 2.

End CatalogLoadSpec.

Definition stock_at (ps : list product) (i : nat) : Z :=
  match nth_error ps i with Some p => stock p | None => 0 end.

(** A cart line whose barcode no product has. *)
Definition line_missing (ps : list product) (it : cart_item) : Prop :=
  first_index (fun p => String.eqb (barcode p) (it_barcode it)) ps = None.

(** ** The rest of the script *)

(** [detect_product_sheet()]: [sheets] is [pd.ExcelFile(INVENTORY_FILE)
    .sheet_names], [None] when opening the workbook raises. *)
Definition PRODUCT_SHEET_PREFERRED : string := "products".

Definition detect_product_sheet (sheets : option (list string)) : string :=
  match sheets with
  | None => PRODUCT_SHEET_PREFERRED
  | Some sheet_names =>
      match find (fun c => existsb (String.eqb c) sheet_names)
                 [PRODUCT_SHEET_PREFERRED; "商品信息"; "products"] with
      | Some c => c
      | None => match sheet_names with
                | s :: _ => s
                | [] => PRODUCT_SHEET_PREFERRED
                end
      end
  end.

(** [df.tail(n)] for [n >= 0]: the last [n] rows (all of them when fewer). *)
Definition df_tail {A} (n : nat) (l : list A) : list A :=
  skipn (length l - n) l.

(** [tx.tail(n).iloc[::-1]]: the "recent transactions" tables of the POS
    page ([n = 10]) and of the export page ([n = 50]). *)
Definition recent_view {A} (n : nat) (l : list A) : list A :=
  rev (df_tail n l).

(** The action radio of the warehouse page: "入库" (in), "出库" (out),
    anything else is "库存调整" (adjust, also a positive change). *)
Definition stock_delta (action : string) (qty : Z) : Z * string :=
  if String.eqb action "入库" then (qty, "in")
  else if String.eqb action "出库" then (- qty, "out")
  else (qty, "adjust").

(** [st.session_state["scan_input"] = ""] after the [st.text_input] with
    key ["scan_input"] has been drawn in the same run. *)
Definition scan_input_error : py_exc :=
  StreamlitAPIException
    "`st.session_state.scan_input` cannot be modified after the widget with key `scan_input` is instantiated.".

Section PosUi.

Variable RAPIDFUZZ_AVAILABLE : bool.
Variable str_contains : string -> string -> bool.
Variable WRatio : string -> string -> Z.

(** The line item built from the row found: [float(price)] ([price] is never
    [None] in the loaded frame), [int(qty)], and [price * qty].  The name is
    the text the block's f-strings print ([nan] for a missing name). *)
Definition cart_item_of (p : product) (qty : Z) : cart_item :=
  mkItem (id p) (barcode p) (name_str (name p)) (price p) qty
         (price p * CatalogLoad.float_of_Z qty)%float.

(** The row the POS page adds: the first exact barcode match, else the first
    row of [search_by_name(barcode_input, products, limit=1)]. *)
Definition cart_lookup (barcode_input : string) (products : list row) : option row :=
  match search_by_barcode barcode_input products with
  | r :: _ => Some r
  | [] =>
      match search_by_name RAPIDFUZZ_AVAILABLE str_contains WRatio
                           barcode_input products 1 with
      | r :: _ => Some r
      | [] => None
      end
  end.

(** The "add to cart" button of the POS page, pressed with [barcode_input]
    and the quantity [qty] ([>= 1]); [false] for a blank input or the
    "未找到商品" warning.  When a row is found the line is appended to the
    cart, and then clearing the input ([st.session_state["scan_input"] = ""])
    raises, so the call never returns [true].  [products] is the frame
    loaded at the top of the script. *)
Definition add_to_cart (barcode_input : string) (qty : Z) : M bool :=
  products <- load_products ;;
  if negb (String.eqb (py_strip barcode_input) "") then
    match cart_lookup barcode_input products with
    | None => ret false
    | Some r =>
        modify (fun w => set_cart (app (w_cart w) [cart_item_of (row_p r) qty]) w) ;;;
        raise scan_input_error
    end
  else ret false.

(** [df_bar] of the warehouse form: the barcode matches when the barcode
    field is not blank, else (or when they are none) the name matches with
    [limit=1] when the name field is not blank. *)
Definition stock_lookup (barcode0 name0 : string) (products : list row) : list row :=
  let df_bar := if negb (String.eqb (py_strip barcode0) "")
                then search_by_barcode barcode0 products else [] in
  match df_bar with
  | [] => if negb (String.eqb (py_strip name0) "")
          then search_by_name RAPIDFUZZ_AVAILABLE str_contains WRatio
                              name0 products 1
          else []
  | l => l
  end.

(** The submit button of the warehouse form ("stock_form"): [None] for the
    "未找到商品" error, [Some (ok, msg)] for the result of
    [update_stock_by_barcode] on [str(df_bar.iloc[0]["barcode"])]. *)
Definition stock_form (action barcode0 name0 : string) (qty : Z)
    (operator note : string) : M (option (bool * string)) :=
  products <- load_products ;;
  match stock_lookup barcode0 name0 products with
  | [] => ret None
  | r :: _ =>
      let b := barcode (row_p r) in
      let dt := stock_delta action qty in
      res <- update_stock_by_barcode b (fst dt) operator (snd dt) note ;;
      ret (Some res)
  end.

End PosUi.

(** A list is a subsequence of another, in the same order. *)
Inductive sublist {A} : list A -> list A -> Prop :=
| sublist_nil : sublist [] []
| sublist_skip x l1 l2 : sublist l1 l2 -> sublist l1 (x :: l2)
| sublist_keep x l1 l2 : sublist l1 l2 -> sublist (x :: l1) (x :: l2).

(** *** Catalog Store: [save_products] on the sheet *)

Module CatalogSave.
Import CatalogLoad.

(** [REVERSE_COLUMN_MAP = {v: k for k, v in COLUMN_MAP.items()}] *)
Definition REVERSE_COLUMN_MAP : list (string * string) :=
  map (fun kv => (snd kv, fst kv)) COLUMN_MAP.

(** [df.rename(columns=REVERSE_COLUMN_MAP)] on one label. *)
Definition rename_rev (c : string) : string :=
  match find (fun kv => String.eqb (fst kv) c) REVERSE_COLUMN_MAP with
  | Some (_, zh) => zh
  | None => c
  end.

Section Write.

(** What a cell of the frame reads back as, with [dtype=str], after
    [to_excel]; a column that [reindex] adds is all [NaN], written as empty
    cells. *)
Variable write_cell : cell -> raw_cell.

(** The product sheet that [save_products(df)] writes, as the next
    [load_products] reads it: [df.rename(columns=REVERSE_COLUMN_MAP)
    .reindex(columns=CHINESE_HEADERS_ORDER)] with its [nrows] rows
    ([reindex] raises on duplicate labels, which the statements exclude). *)
Definition saved_sheet (nrows : nat) (df : frame) : raw_sheet :=
  let df1 := map (fun kv => (rename_rev (fst kv), snd kv)) df in
  mkSheet (map (fun zh => (zh, if has_col zh df1
                               then map write_cell (get_col zh df1)
                               else repeat RNaN nrows))
               CHINESE_HEADERS_ORDER)
          nrows.

End Write.

(** The internal columns [load_products] keeps as text read with [dtype=str]
    (no [fillna], no coercion). *)
Definition TEXT_COLUMNS : list string :=
  ["category"; "name"; "profit_margin"; "location"; "supplier"; "image_path"; "notes"].

End CatalogSave.

(** ** Lemmas on the embedding *)

Lemma first_index_rows (code : string) (ps : list product) :
  first_index (fun r => String.eqb (barcode (row_p r)) code) (rows_of ps) =
  first_index (fun p => String.eqb (barcode p) code) ps.
Proof.
  induction ps as [|p ps IH]; cbn; [reflexivity|].
  destruct (String.eqb (barcode p) code); [reflexivity|].
  unfold rows_of in IH; rewrite IH; reflexivity.
Qed.

Lemma nth_error_rows (ps : list product) (i : nat) :
  nth_error (rows_of ps) i = option_map (fun p => mkRow p None) (nth_error ps i).
Proof. unfold rows_of; apply nth_error_map. Qed.

Lemma row_p_rows (ps : list product) : map row_p (rows_of ps) = ps.
Proof.
  unfold rows_of; rewrite map_map; cbn; apply map_id.
Qed.

Lemma save_rows_update (ps : list product) (i : nat) (s : Z) :
  map row_p (update_nth i (fun r => set_row_stock r s) (rows_of ps)) =
  update_nth i (fun p => with_stock p s) ps.
Proof.
  revert i; induction ps as [|p ps IH]; intros [|i]; cbn; try reflexivity.
  - f_equal; apply row_p_rows.
  - f_equal; apply IH.
Qed.

(** [update_stock_by_barcode] in closed form: a missing barcode changes
    nothing; a present one has its first row's stock saved and then the
    call raises at [df.at[i]]. *)
Lemma update_stock_by_barcode_eq code delta operator typ note w :
  update_stock_by_barcode code delta operator typ note w =
  match first_index (fun p => String.eqb (barcode p) code) (w_products w) with
  | None => Ok (false, msg_not_found) w
  | Some i =>
      Exc at_error
          (next_uuid (set_products
             (update_nth i (fun p => with_stock p (stock_at (w_products w) i + delta))
                         (w_products w)) w))
  end.
Proof.
  unfold update_stock_by_barcode, bind, load_products, gets, datetime_now.
  fold (rows_of (w_products w)).
  rewrite first_index_rows.
  destruct (first_index _ (w_products w)) as [i|]; [|reflexivity].
  rewrite nth_error_rows.
  unfold stock_at, save_products, modify, uuid4, df_at, raise.
  rewrite <- save_rows_update.
  destruct (nth_error (w_products w) i); reflexivity.
Qed.

Lemma first_index_absent (code : string) (ps : list product) :
  Forall (fun p => barcode p <> code) ps ->
  first_index (fun p => String.eqb (barcode p) code) ps = None.
Proof.
  induction 1 as [|p ps Hp _ IH]; cbn; [reflexivity|].
  destruct (String.eqb_spec (barcode p) code); [contradiction|].
  rewrite IH; reflexivity.
Qed.

(** [update_stock_by_barcode] touches neither the transactions, the stock
    log nor the cart. *)
Lemma update_stock_by_barcode_frame code delta operator typ note w :
  let w' := final_world (update_stock_by_barcode code delta operator typ note w) in
  w_transactions w' = w_transactions w /\ w_stock_log w' = w_stock_log w /\
  w_cart w' = w_cart w.
Proof.
  cbv zeta; rewrite update_stock_by_barcode_eq.
  destruct (first_index _ _); cbn; auto.
Qed.

Lemma checkout_loop_frame cart : forall success messages w,
  let w' := final_world (checkout_loop cart success messages w) in
  w_transactions w' = w_transactions w /\ w_stock_log w' = w_stock_log w /\
  w_cart w' = w_cart w.
Proof.
  induction cart as [|it rest IH]; intros success messages w; cbv zeta.
  - cbn; auto.
  - cbn [checkout_loop]; unfold bind.
    pose proof (update_stock_by_barcode_frame (it_barcode it) (- it_qty it)
                  op_cashier "sale" note_pos w) as Hf.
    destruct (update_stock_by_barcode _ _ _ _ _ w) as [[ok msg] w1|e w1];
      cbn in Hf |- *; [|exact Hf].
    destruct Hf as (Ht & Hl & Hc).
    destruct ok; cbn;
      [ destruct (IH success messages w1) as (Ht' & Hl' & Hc')
      | destruct (IH false (app messages [fail_message it msg]) w1)
          as (Ht' & Hl' & Hc') ];
      rewrite Ht', Hl', Hc'; auto.
Qed.

(** ** Checkout Orchestrator *)

(** C1 (counterexample): the cart [[deleted line; water x2]] against a
    catalog holding only water.  The first line fails (its barcode is
    absent), yet the checkout goes on to the second line and its decrement
    50 -> 48 is applied and saved. *)
Lemma C1_later_line_applied_after_failure :
  first_index (fun p => String.eqb (barcode p) (it_barcode ghost_x1)) [water] = None /\
  map stock (w_products (final_world
    (checkout 6%float 6%float (world_of [water] [ghost_x1; water_x2])))) = [48].
Proof. split; vm_compute; reflexivity. Qed.

(** C1 (amended): checkout does not stop at a failing line.  A line whose
    barcode is absent from the catalog changes nothing, adds its message
    ["name: 未找到条码对应商品"] and the loop goes on with the next lines.
    Whenever the checkout does not complete, no transaction is appended and
    the cart is kept; on the reported failure the store is the one the loop
    left, so decrements applied before are not rolled back. *)
Theorem C1_checkout_failure_amended :
  (forall w it rest success messages,
     first_index (fun p => String.eqb (barcode p) (it_barcode it)) (w_products w) = None ->
     checkout_loop (it :: rest) success messages w =
     checkout_loop rest false (app messages [fail_message it msg_not_found]) w) /\
  (forall w total_amount paid_amount,
     match checkout total_amount paid_amount w with
     | Ok (Completed _) _ => True
     | Ok (PartiallyFailed msgs) w' =>
         checkout_loop (w_cart w) true [] w = Ok (false, msgs) w' /\
         w_transactions w' = w_transactions w /\ w_cart w' = w_cart w
     | Exc _ w' => w_transactions w' = w_transactions w /\ w_cart w' = w_cart w
     end).
Proof.
  split.
  - intros w it rest success messages Hnone.
    cbn [checkout_loop]; unfold bind.
    rewrite update_stock_by_barcode_eq, Hnone; reflexivity.
  - intros w total_amount paid_amount.
    unfold checkout, bind, gets.
    pose proof (checkout_loop_frame (w_cart w) true [] w) as Hf; cbv zeta in Hf.
    destruct (checkout_loop (w_cart w) true [] w) as [[ok msgs] w1|e w1];
      cbn in Hf |- *; destruct Hf as (Ht & _ & Hc); [|auto].
    destruct ok; cbn; [exact I|auto].
Qed.

(** C6 (code_bug): the spec's own example, cart [[water x2]], stock 50,
    paid 10.0.  The stock of water is saved as 48, then
    [update_stock_by_barcode] raises [TypeError] at [df.at[i]]: no
    stock-log entry, no transaction, and the cart is kept. *)
Theorem C6_checkout_example_raises :
  match checkout 5%float 10%float (world_of [water] [water_x2]) with
  | Exc e w' =>
      e = at_error /\ map stock (w_products w') = [48] /\
      w_transactions w' = [] /\ w_stock_log w' = [] /\ w_cart w' = [water_x2]
  | Ok _ _ => False
  end.
Proof. vm_compute; repeat split. Qed.

(** ** Stock Mutator *)

(** C5: for a barcode that no catalog entry has, [update_stock_by_barcode]
    returns [(False, "未找到条码对应商品")] and the world is left exactly as
    it was: no save, no stock-log entry, no transaction. *)
Theorem C5_adjust_stock_not_found code delta operator typ note w
    (Habsent : Forall (fun p => barcode p <> code) (w_products w)) :
  update_stock_by_barcode code delta operator typ note w = Ok (false, msg_not_found) w.
Proof.
  rewrite update_stock_by_barcode_eq, first_index_absent by exact Habsent.
  reflexivity.
Qed.

Lemma C5_adjust_stock_not_found_witness :
  Forall (fun p => barcode p <> "123") [water; noodles] /\
  update_stock_by_barcode "123" (-1) "仓库" "out" "" (world_of [water; noodles] [])
  = Ok (false, msg_not_found) (world_of [water; noodles] []).
Proof.
  assert (H : Forall (fun p => barcode p <> "123") [water; noodles])
    by (repeat constructor; cbn; discriminate).
  split; [exact H|].
  exact (C5_adjust_stock_not_found "123" (-1) "仓库" "out" ""
           (world_of [water; noodles] []) H).
Defined.

(** C10 (code_bug): with two entries sharing a barcode, adjusting it by -1
    changes only the first entry (50 -> 49, the second stays 7), but the
    call then raises at [df.at[i]] and no stock-log entry is appended. *)
Theorem C10_duplicate_barcode_adjust_raises :
  match update_stock_by_barcode "6901234567890" (-1) "仓库" "out" ""
          (world_of [water; water_dup] []) with
  | Exc e w' =>
      e = at_error /\ w_products w' = [with_stock water 49; water_dup] /\
      w_stock_log w' = []
  | Ok _ _ => False
  end.
Proof. vm_compute; repeat split. Qed.

(** ** Stock-log invariant *)

Ltac unfold_M :=
  unfold bind, ret, gets, modify, raise, uuid4, datetime_now, load_products,
    save_products, append_stock_log, append_transaction.

Lemma nth_error_update_nth_same {A} (f : A -> A) (l : list A) (i : nat) :
  nth_error (update_nth i f l) i = option_map f (nth_error l i).
Proof.
  revert i; induction l as [|x l IH]; intros [|i]; cbn; auto.
Qed.

Lemma add_product_log a b c p pp bp bq l s n w :
  w_stock_log (final_world (add_product a b c p pp bp bq l s n w)) =
  app (w_stock_log w)
      (if (s >? 0) && negb (String.eqb (py_strip b) "")
       then [initial_log w b a s] else []).
Proof.
  unfold add_product; unfold_M; cbn.
  destruct ((s >? 0) && negb (String.eqb (py_strip b) "")); cbn;
    [reflexivity | symmetry; apply app_nil_r].
Qed.

Lemma update_product_log e a c p pp bp bq l s n w :
  exists new, w_stock_log (final_world (update_product e a c p pp bp bq l s n w))
              = app (w_stock_log w) new /\ Forall log_ok new.
Proof.
  unfold update_product; unfold_M; cbn.
  fold (rows_of (w_products w)); rewrite first_index_rows.
  destruct (first_index _ (w_products w)) as [i|]; cbn.
  - destruct (negb _); cbn.
    + eexists; split; [reflexivity|].
      constructor; [unfold log_ok; cbn; lia|constructor].
    + exists []; split; [symmetry; apply app_nil_r|constructor].
  - exists []; split; [symmetry; apply app_nil_r|constructor].
Qed.

Lemma checkout_log t p w :
  w_stock_log (final_world (checkout t p w)) = w_stock_log w.
Proof.
  unfold checkout, bind, gets.
  pose proof (checkout_loop_frame (w_cart w) true [] w) as Hf; cbv zeta in Hf.
  destruct (checkout_loop (w_cart w) true [] w) as [[ok msgs] w1|e w1];
    cbn in Hf |- *; destruct Hf as (_ & Hl & _); [|exact Hl].
  destruct ok; unfold_M; cbn; exact Hl.
Qed.

(** C2: every operation only appends to the stock log, and every entry it
    appends satisfies [after_stock = before_stock + change]; the stock that
    [update_stock_by_barcode] saves for the matched entry is
    [before + delta], with no floor, so it may go negative. *)
Theorem C2_stock_log_invariant :
  (forall op w, exists new,
     w_stock_log (final_world (run_op op w)) = app (w_stock_log w) new /\
     Forall log_ok new) /\
  (forall code delta operator typ note w i p,
     first_index (fun p => String.eqb (barcode p) code) (w_products w) = Some i ->
     nth_error (w_products w) i = Some p ->
     nth_error (w_products (final_world
                  (update_stock_by_barcode code delta operator typ note w))) i
     = Some (with_stock p (stock p + delta))).
Proof.
  split.
  - intros op w; destruct op as [c d o t n|a b c p pp bp bq l s n
                                 |e a c p pp bp bq l s n|e|t p]; cbn [run_op].
    + exists []; split; [|constructor].
      rewrite app_nil_r; unfold bind.
      pose proof (update_stock_by_barcode_frame c d o t n w) as (_ & Hl & _).
      destruct (update_stock_by_barcode c d o t n w); exact Hl.
    + rewrite add_product_log; eexists; split; [reflexivity|].
      destruct (_ && _); repeat constructor; unfold log_ok; cbn; lia.
    + pose proof (update_product_log e a c p pp bp bq l s n w) as (new & Hn & Hok).
      exists new; split; [|exact Hok].
      unfold bind; destruct (update_product e a c p pp bp bq l s n w); exact Hn.
    + exists []; split; [|constructor].
      rewrite app_nil_r; unfold delete_product; unfold_M; reflexivity.
    + exists []; split; [|constructor].
      rewrite app_nil_r; unfold bind.
      pose proof (checkout_log t p w) as Hl.
      destruct (checkout t p w); exact Hl.
  - intros code delta operator typ note w i p Hi Hp.
    rewrite update_stock_by_barcode_eq, Hi; cbn.
    rewrite nth_error_update_nth_same, Hp; unfold stock_at; rewrite Hp.
    reflexivity.
Qed.

(** A witness of C2: a decrement of 60 on a stock of 50 is saved as -10. *)
Lemma C2_stock_log_invariant_witness :
  nth_error (w_products (final_world
     (update_stock_by_barcode "6901234567890" (-60) "仓库" "out" ""
        (world_of [water; noodles] [])))) 0%nat
  = Some (with_stock water (-10)).
Proof.
  exact (proj2 C2_stock_log_invariant "6901234567890" (-60) "仓库" "out" ""
           (world_of [water; noodles] []) 0%nat water eq_refl eq_refl).
Defined.

(** ** Lookup Engine *)

Lemma process_extract_twice WRatio q x :
  process_extract WRatio q [x; x] 1 = [x].
Proof.
  unfold process_extract; cbn.
  destruct (WRatio q x <? WRatio q x); reflexivity.
Qed.

(** C3 (code_bug): two products named "apple", the query "appel" (no
    substring match), [limit=1], rapidfuzz available.  Whatever the scores,
    [process.extract] returns the single name "apple", and
    [products_df[products_df["name"].isin(names)]] then returns both rows:
    two results for a limit of 1. *)
Theorem C3_fuzzy_fallback_exceeds_limit (WRatio : string -> string -> Z) :
  filter (fun r => ci_contains "appel" (name_str (name (row_p r))))
         (rows_of [apple_loose; apple_boxed]) = [] /\
  search_by_name true ci_contains WRatio "appel"
                 (rows_of [apple_loose; apple_boxed]) 1
  = rows_of [apple_loose; apple_boxed].
Proof.
  split; [vm_compute; reflexivity|].
  unfold search_by_name.
  change (py_strip "appel") with "appel".
  change (filter (fun r => ci_contains "appel" (name_str (name (row_p r))))
                 (rows_of [apple_loose; apple_boxed])) with (@nil row).
  change (map (fun r => name_str (name (row_p r))) (rows_of [apple_loose; apple_boxed]))
    with ["apple"; "apple"].
  rewrite process_extract_twice; reflexivity.
Qed.

(** C4 (counterexample): with water listed twice under one barcode,
    [search_by_barcode] returns both rows. *)
Lemma C4_barcode_lookup_two_results :
  water <> water_dup /\
  search_by_barcode "6901234567890" (rows_of [water; water_dup])
  = rows_of [water; water_dup].
Proof.
  split; [discriminate|vm_compute; reflexivity].
Qed.

Lemma filter_barcode_unique (b : string) (df : list row) :
  b <> "" ->
  NoDup (filter (fun c => negb (String.eqb c "")) (map (fun r => barcode (row_p r)) df)) ->
  (length (filter (fun r => String.eqb (barcode (row_p r)) b) df) <= 1)%nat.
Proof.
  intros Hb; induction df as [|r df IH]; cbn; intros Hnd; [lia|].
  destruct (String.eqb_spec (barcode (row_p r)) b) as [Heq|Hne].
  - subst b.
    destruct (String.eqb_spec (barcode (row_p r)) "") as [He|_]; [contradiction|].
    cbn in Hnd; apply NoDup_cons_iff in Hnd as [Hnin _].
    assert (Hnil : filter (fun r' => String.eqb (barcode (row_p r')) (barcode (row_p r))) df = []).
    { destruct (filter _ df) as [|r' l'] eqn:E; [reflexivity|exfalso].
      assert (Hin : In r' (filter (fun r' => String.eqb (barcode (row_p r'))
                                                       (barcode (row_p r))) df))
        by (rewrite E; left; reflexivity).
      apply filter_In in Hin as [Hin Hb'].
      apply String.eqb_eq in Hb'.
      apply Hnin, filter_In; split.
      - apply in_map_iff; exists r'; split; assumption.
      - destruct (String.eqb_spec (barcode (row_p r)) ""); [contradiction|reflexivity]. }
    rewrite Hnil; cbn; lia.
  - apply IH.
    destruct (negb (String.eqb (barcode (row_p r)) "")); cbn in Hnd;
      [apply NoDup_cons_iff in Hnd as [_ Hnd]|]; exact Hnd.
Qed.

(** C4 (amended): [search_by_barcode] returns no row for an empty or
    whitespace-only input; otherwise it returns exactly the rows whose
    barcode equals the stripped input (no partial or fuzzy match), so at most
    one row when the non-empty barcodes of the catalog are distinct. *)
Theorem C4_search_by_barcode_amended (code : string) (df : list row) :
  (py_strip code = "" -> search_by_barcode code df = []) /\
  (forall r, In r (search_by_barcode code df) <->
             In r df /\ py_strip code <> "" /\ barcode (row_p r) = py_strip code) /\
  (NoDup (filter (fun c => negb (String.eqb c "")) (map (fun r => barcode (row_p r)) df)) ->
   (length (search_by_barcode code df) <= 1)%nat).
Proof.
  unfold search_by_barcode.
  destruct (String.eqb_spec (py_strip code) "") as [He|Hne].
  - split; [reflexivity|split; [|intros; cbn; lia]].
    intros r; split; [intros []|intros (_ & H & _); contradiction].
  - split; [intros H; contradiction|split].
    + intros r; rewrite filter_In, String.eqb_eq; tauto.
    + apply filter_barcode_unique; exact Hne.
Qed.

(** ** Catalog Editor *)

Lemma NoDup_snoc {A} (l : list A) (x : A) :
  NoDup l -> ~ In x l -> NoDup (app l [x]).
Proof.
  induction 1 as [|y l Hy Hnd IH]; intros Hx; cbn.
  - constructor; [intros []|constructor].
  - constructor.
    + rewrite in_app_iff; intros [H|[H|[]]]; [contradiction|].
      subst; apply Hx; left; reflexivity.
    + apply IH; intros H; apply Hx; right; exact H.
Qed.

(** C8: [add_product] appends the new row, whose id is the [uuid4] value
    drawn for it (so the ids stay distinct when that value is not already
    an id), and writes one [in_initial] stock-log entry with
    [before_stock = 0] and [after_stock = change = stock] exactly when the
    initial stock is positive and the stripped barcode is non-empty, and no
    entry otherwise. *)
Theorem C8_add_product_spec name0 barcode0 category0 price0 purchase_price0
    bulk_price0 bulk_quantity0 location0 stock0 notes0 w :
  let new := added_product w name0 barcode0 category0 price0 purchase_price0
               bulk_price0 bulk_quantity0 location0 stock0 notes0 in
  match add_product name0 barcode0 category0 price0 purchase_price0 bulk_price0
          bulk_quantity0 location0 stock0 notes0 w with
  | Ok _ w' =>
      w_products w' = app (w_products w) [new] /\
      id new = w_uuid_gen w (w_uuid_next w) /\
      (NoDup (map id (w_products w)) -> ~ In (id new) (map id (w_products w)) ->
       NoDup (map id (w_products w'))) /\
      w_stock_log w' =
        app (w_stock_log w)
            (if (stock0 >? 0) && negb (String.eqb (py_strip barcode0) "")
             then [initial_log w barcode0 name0 stock0] else []) /\
      w_transactions w' = w_transactions w
  | Exc _ _ => False
  end.
Proof.
  cbv zeta; unfold add_product; unfold_M; cbn.
  fold (rows_of (w_products w)).
  assert (Hp : map row_p (app (rows_of (w_products w))
                 [mkRow (added_product w name0 barcode0 category0 price0
                           purchase_price0 bulk_price0 bulk_quantity0 location0
                           stock0 notes0) (Some "")])
               = app (w_products w) [added_product w name0 barcode0 category0
                     price0 purchase_price0 bulk_price0 bulk_quantity0 location0
                     stock0 notes0])
    by (rewrite map_app, row_p_rows; reflexivity).
  unfold added_product in Hp |- *.
  destruct ((stock0 >? 0) && negb (String.eqb (py_strip barcode0) "")); cbn;
    rewrite Hp; (split; [reflexivity|split; [reflexivity|split]]);
    try (intros Hnd Hnin; rewrite map_app; apply NoDup_snoc; assumption);
    (split; [|reflexivity]); [reflexivity|symmetry; apply app_nil_r].
Qed.

Lemma filter_rows (f : product -> bool) (ps : list product) :
  map row_p (filter (fun r => f (row_p r)) (rows_of ps)) = filter f ps.
Proof.
  induction ps as [|p ps IH]; cbn; [reflexivity|].
  destruct (f p); cbn; [f_equal|]; exact IH.
Qed.

Lemma filter_idem {A} (f : A -> bool) (l : list A) :
  filter f (filter f l) = filter f l.
Proof.
  induction l as [|x l IH]; cbn; [reflexivity|].
  destruct (f x) eqn:E; cbn; [rewrite E; f_equal|]; exact IH.
Qed.

Lemma delete_product_eq e w :
  delete_product e w =
  Ok tt (set_products (filter (fun p => negb (String.eqb (barcode p) e))
                              (w_products w)) w).
Proof.
  unfold delete_product; unfold_M; cbn.
  fold (rows_of (w_products w)).
  rewrite (filter_rows (fun p => negb (String.eqb (barcode p) e))).
  reflexivity.
Qed.

(** C9: [delete_product] saves the catalog without every row carrying the
    barcode and changes nothing else (no stock-log entry, no transaction);
    for a barcode no row has it is a no-op that succeeds, and deleting twice
    is deleting once. *)
Theorem C9_delete_product_spec (e : string) (w : world) :
  delete_product e w =
    Ok tt (set_products (filter (fun p => negb (String.eqb (barcode p) e))
                                (w_products w)) w) /\
  w_stock_log (final_world (delete_product e w)) = w_stock_log w /\
  w_transactions (final_world (delete_product e w)) = w_transactions w /\
  (Forall (fun p => barcode p <> e) (w_products w) -> delete_product e w = Ok tt w) /\
  bind (delete_product e) (fun _ => delete_product e) w = delete_product e w.
Proof.
  rewrite !delete_product_eq.
  split; [reflexivity|split; [reflexivity|split; [reflexivity|split]]].
  - intros Hall.
    rewrite forallb_filter_id.
    + destruct w; reflexivity.
    + apply forallb_forall; intros p Hp.
      rewrite Forall_forall in Hall; specialize (Hall p Hp).
      destruct (String.eqb_spec (barcode p) e); [contradiction|reflexivity].
  - unfold bind; rewrite (delete_product_eq e w); cbv beta iota.
    rewrite delete_product_eq; unfold set_products at 2; cbn [w_products].
    rewrite filter_idem; reflexivity.
Qed.

(** ** Catalog Store: loading *)

Module CatalogLoadProofs.
Import CatalogLoad CatalogLoadSpec.

Lemma get_set_col (c c' : string) (v : list cell) (df : frame) :
  get_col c (set_col c' v df) = if String.eqb c c' then v else get_col c df.
Proof.
  induction df as [|[c0 v0] df IH]; cbn.
  - destruct (String.eqb c c'); reflexivity.
  - destruct (String.eqb_spec c' c0) as [->|Hne]; cbn.
    + destruct (String.eqb c c0); reflexivity.
    + rewrite IH.
      destruct (String.eqb_spec c c0) as [->|]; [|reflexivity].
      destruct (String.eqb_spec c0 c') as [->|]; [contradiction|reflexivity].
Qed.

Lemma has_set_col (c c' : string) (v : list cell) (df : frame) :
  has_col c (set_col c' v df) = has_col c df || String.eqb c c'.
Proof.
  induction df as [|[c0 v0] df IH]; cbn.
  - rewrite orb_false_r; reflexivity.
  - destruct (String.eqb_spec c' c0) as [->|Hne]; cbn.
    + destruct (String.eqb c c0); cbn; rewrite ?orb_false_r; reflexivity.
    + rewrite IH, orb_assoc; reflexivity.
Qed.

Lemma has_col_app (c : string) (df df' : frame) :
  has_col c (app df df') = has_col c df || has_col c df'.
Proof.
  induction df as [|[c0 v0] df IH]; cbn; [reflexivity|].
  rewrite IH, orb_assoc; reflexivity.
Qed.

Lemma has_col_fold (c : string) (n : nat) (cols : list string) : forall df,
  has_col c (fold_left (fun df col => if has_col col df then df
                                      else app df [(col, repeat CNone n)])
                       cols df) = has_col c df || existsb (String.eqb c) cols.
Proof.
  induction cols as [|col cols IH]; intros df; cbn.
  - rewrite orb_false_r; reflexivity.
  - rewrite IH.
    destruct (has_col col df) eqn:E.
    + destruct (String.eqb_spec c col) as [->|]; cbn.
      * rewrite E; reflexivity.
      * reflexivity.
    + rewrite has_col_app; cbn.
      rewrite orb_false_r, orb_assoc; reflexivity.
Qed.

Lemma has_col_in (c : string) (df : frame) :
  In c (map fst df) -> has_col c df = true.
Proof.
  induction df as [|[c0 v0] df IH]; cbn; [intros []|].
  intros [->|H].
  - rewrite String.eqb_refl; reflexivity.
  - rewrite IH by exact H; apply orb_true_r.
Qed.

Lemma normalized_has (sh : raw_sheet) (c : string) :
  In c (ENGLISH_HEADERS_ORDER ++ ["expiry_date"]) -> has_col c (normalized sh) = true.
Proof.
  intros Hc; unfold normalized; rewrite has_col_fold.
  apply orb_true_intro; right.
  apply existsb_exists; exists c; split; [exact Hc|apply String.eqb_refl].
Qed.

Lemma get_process (tn : string -> float) (sh : raw_sheet) (c : string) :
  get_col c (process tn sh) =
  if String.eqb c "bulk_quantity"
  then int_column tn (get_col "bulk_quantity" (normalized sh))
  else if String.eqb c "bulk_price"
  then float_column tn (get_col "bulk_price" (normalized sh))
  else if String.eqb c "purchase_price"
  then float_column tn (get_col "purchase_price" (normalized sh))
  else if String.eqb c "price"
  then float_column tn (get_col "price" (normalized sh))
  else if String.eqb c "stock"
  then int_column tn (get_col "stock" (normalized sh))
  else if String.eqb c "id"
  then map fill_str (get_col "id" (normalized sh))
  else if String.eqb c "barcode"
  then map fill_str (get_col "barcode" (normalized sh))
  else get_col c (normalized sh).
Proof.
  unfold process; cbn [fold_left].
  repeat rewrite get_set_col; reflexivity.
Qed.

Lemma has_process (tn : string -> float) (sh : raw_sheet) (c : string) :
  has_col c (normalized sh) = true -> has_col c (process tn sh) = true.
Proof.
  intros H; unfold process; cbn [fold_left].
  repeat rewrite has_set_col; rewrite H; reflexivity.
Qed.

Lemma int_column_coerced (tn : string -> float) (cells : list cell) :
  int_column tn cells = int_coerced tn cells.
Proof.
  unfold int_column, int_coerced.
  assert (Hall : forallb is_finite
                   (map (fun c => if is_nan (num_of tn c) then 0%float
                                  else num_of tn c) cells)
                 = forallb (fun c => is_nan (num_of tn c) || is_finite (num_of tn c))
                           cells).
  { induction cells as [|c cells IH]; cbn; [reflexivity|].
    rewrite IH; destruct (is_nan (num_of tn c)); reflexivity. }
  rewrite Hall, map_map.
  destruct (forallb _ cells); [|reflexivity].
  apply map_ext; intros c.
  destruct (is_nan (num_of tn c)); reflexivity.
Qed.

Lemma map_fill_text (l : list cell) : Forall is_text (map fill_str l).
Proof.
  induction l as [|c l IH]; cbn; constructor; [|exact IH].
  destruct c; eexists; reflexivity.
Qed.

Lemma normalized_renamed (sh : raw_sheet) (c : string) :
  localized_present sh = true -> In c (map fst (raw_columns sh)) ->
  has_col (rename_label c) (normalized sh) = true.
Proof.
  intros Hloc Hc; unfold normalized; cbv zeta.
  rewrite has_col_fold; apply orb_true_intro; left.
  assert (Heq : map fst (map (fun kv => (fst kv, map of_raw (snd kv))) (raw_columns sh))
                = map fst (raw_columns sh)) by (rewrite map_map; reflexivity).
  rewrite Heq.
  unfold localized_present in Hloc; rewrite Hloc.
  apply has_col_in.
  assert (Hl : map fst (map (fun kv => (rename_label (fst kv), snd kv))
                         (map (fun kv => (fst kv, map of_raw (snd kv)))
                              (raw_columns sh)))
               = map rename_label (map fst (raw_columns sh)))
    by (rewrite !map_map; reflexivity).
  rewrite Hl; apply in_map; exact Hc.
Qed.

End CatalogLoadProofs.

Module CatalogLoadClaims.
Import CatalogLoad CatalogLoadSpec CatalogLoadProofs.

(** C7 (counterexample): a product sheet whose stock column holds "5" and
    "inf".  "5" is a valid integer, yet [astype(int)] raises on the
    infinity and the [except] branch sets the whole column to 0, so the
    first product loads with stock 0.  And when [inventory.xlsx] is
    missing and cannot be created, [load_products] raises. *)
Lemma C7_load_inf_zeroes_stock_column :
  py_to_numeric "5" = 5%float /\
  match fst (load_products py_to_numeric "id-1" "id-2" (mkFs (Some (Some sheet_inf)) true)) with
  | Ret df => get_col "stock" df = [CInt 0; CInt 0]
  | Raise _ => False
  end /\
  match fst (load_products py_to_numeric "id-1" "id-2" (mkFs None false)) with
  | Raise e => e = OSError "Permission denied: 'inventory.xlsx'"
  | Ret _ => False
  end.
Proof. vm_compute; repeat split. Qed.

(** C7 (amended): [load_products] raises only when the store is missing and
    cannot be created (the bootstrap runs outside the [try]).  Otherwise the
    frame has every internal column and [expiry_date]; an unreadable sheet
    gives the empty frame; on a readable sheet whose labels stay distinct
    after renaming and whose numeric cells parse to nothing, to an infinity
    or to a number below 2^53 in magnitude, the localized labels (when
    any is present) are renamed to internal names, [barcode] and [id] are
    text, [stock] and [bulk_quantity] are integers (each value truncated,
    missing or unparseable ones 0, and the whole column 0 as soon as one
    value parses to an infinity), and the three prices are the parsed
    numbers ([nan] when invalid). *)
Theorem C7_load_products_amended (tn : string -> float) (id1 id2 : string) (f : fs) :
  match load_products tn id1 id2 f with
  | (Raise _, _) => fs_file f = None /\ fs_writable f = false
  | (Ret df, f') =>
      (forall c, In c (ENGLISH_HEADERS_ORDER ++ ["expiry_date"]) -> has_col c df = true) /\
      (fs_file f' = Some None -> df = empty_frame) /\
      (forall sh, fs_file f' = Some (Some sh) ->
         NoDup (map fst (normalized sh)) ->
         forallb (exact_num tn) (numeric_cells sh) = true ->
         (localized_present sh = true ->
          forall c, In c (map fst (raw_columns sh)) -> has_col (rename_label c) df = true) /\
         Forall is_text (get_col "barcode" df) /\
         Forall is_text (get_col "id" df) /\
         get_col "stock" df = int_coerced tn (get_col "stock" (normalized sh)) /\
         get_col "bulk_quantity" df =
           int_coerced tn (get_col "bulk_quantity" (normalized sh)) /\
         (forall pc, In pc ["price"; "purchase_price"; "bulk_price"] ->
            get_col pc df = float_column tn (get_col pc (normalized sh))))
  end.
Proof.
  unfold load_products, ensure_inventory_file.
  assert (Hproc : forall sh,
    (forall c, In c (ENGLISH_HEADERS_ORDER ++ ["expiry_date"]) ->
               has_col c (process tn sh) = true) /\
    ((localized_present sh = true ->
      forall c, In c (map fst (raw_columns sh)) ->
                has_col (rename_label c) (process tn sh) = true) /\
     Forall is_text (get_col "barcode" (process tn sh)) /\
     Forall is_text (get_col "id" (process tn sh)) /\
     get_col "stock" (process tn sh) = int_coerced tn (get_col "stock" (normalized sh)) /\
     get_col "bulk_quantity" (process tn sh) =
       int_coerced tn (get_col "bulk_quantity" (normalized sh)) /\
     (forall pc, In pc ["price"; "purchase_price"; "bulk_price"] ->
        get_col pc (process tn sh) = float_column tn (get_col pc (normalized sh))))).
  { intros sh; split; [intros c Hc; apply has_process, normalized_has, Hc|].
    split; [intros Hl c Hc; apply has_process, normalized_renamed; assumption|].
    rewrite !get_process.
    cbn [String.eqb Ascii.eqb Bool.eqb andb].
    split; [apply map_fill_text|split; [apply map_fill_text|]].
    rewrite !int_column_coerced.
    split; [reflexivity|split; [reflexivity|]].
    intros pc [<-|[<-|[<-|[]]]]; rewrite get_process;
      cbn [String.eqb Ascii.eqb Bool.eqb andb]; reflexivity. }
  assert (Hempty : forall c, In c (ENGLISH_HEADERS_ORDER ++ ["expiry_date"]) ->
                             has_col c empty_frame = true).
  { intros c Hc; apply has_col_in; unfold empty_frame.
    rewrite map_map; cbn [fst]; rewrite map_id; exact Hc. }
  destruct (fs_file f) as [[sh|]|] eqn:Ef.
  - cbv beta iota; rewrite Ef.
    destruct (Hproc sh) as [Hh Hrest].
    split; [exact Hh|split; [discriminate|]].
    intros sh' Hsh _ _; injection Hsh as <-; exact Hrest.
  - cbv beta iota; rewrite Ef.
    split; [exact Hempty|split; [reflexivity|discriminate]].
  - destruct (fs_writable f) eqn:Ew; cbv beta iota; cbn [fs_file].
    + destruct (Hproc (sample_sheet id1 id2)) as [Hh Hrest].
      split; [exact Hh|split; [discriminate|]].
      intros sh' Hsh _ _; injection Hsh as <-; exact Hrest.
    + split; reflexivity.
Qed.

(** C7 (amended), on [sheet_inf]: its labels are distinct after renaming,
    its numeric cells are in range, and the stock column loads as zeros. *)
Lemma C7_load_products_amended_witness :
  NoDup (map fst (normalized sheet_inf)) /\
  forallb (exact_num py_to_numeric) (numeric_cells sheet_inf) = true /\
  match load_products py_to_numeric "id-1" "id-2" (mkFs (Some (Some sheet_inf)) true) with
  | (Ret df, _) => get_col "stock" df =
                   int_coerced py_to_numeric (get_col "stock" (normalized sheet_inf))
  | (Raise _, _) => False
  end.
Proof.
  assert (Hnd : NoDup (map fst (normalized sheet_inf))).
  { vm_compute; repeat constructor; cbv; intros H;
      repeat (destruct H as [H|H]; [discriminate H|]); exact H. }
  assert (Hr : forallb (exact_num py_to_numeric) (numeric_cells sheet_inf) = true)
    by (vm_compute; reflexivity).
  split; [exact Hnd|split; [exact Hr|]].
  pose proof (C7_load_products_amended py_to_numeric "id-1" "id-2"
                (mkFs (Some (Some sheet_inf)) true)) as H.
  destruct (load_products py_to_numeric "id-1" "id-2"
              (mkFs (Some (Some sheet_inf)) true)) as [[df|e] f'] eqn:E.
  - destruct H as [_ [_ H]].
    assert (Hf : fs_file f' = Some (Some sheet_inf))
      by (vm_compute in E; injection E as _ <-; reflexivity).
    destruct (H sheet_inf Hf Hnd Hr) as [_ [_ [_ [Hs _]]]]; exact Hs.
  - vm_compute in E; discriminate E.
Defined.

End CatalogLoadClaims.

(** ** Further properties of the script *)

(** *** Helper lemmas *)

Lemma sublist_nil_l {A} (l : list A) : sublist [] l.
Proof. induction l; constructor; assumption. Qed.

Lemma sublist_refl {A} (l : list A) : sublist l l.
Proof. induction l; constructor; assumption. Qed.

Lemma sublist_filter {A} (f : A -> bool) (l : list A) : sublist (filter f l) l.
Proof.
  induction l as [|x l IH]; cbn; [constructor|].
  destruct (f x); constructor; exact IH.
Qed.

Lemma sublist_firstn {A} (n : nat) (l : list A) : sublist (firstn n l) l.
Proof.
  revert n; induction l as [|x l IH]; intros [|n]; cbn;
    try apply sublist_nil_l; constructor; apply IH.
Qed.

Lemma sublist_trans {A} (l1 l2 l3 : list A) :
  sublist l1 l2 -> sublist l2 l3 -> sublist l1 l3.
Proof.
  intros H12 H23; revert l1 H12.
  induction H23 as [|x l2 l3 H IH|x l2 l3 H IH]; intros l1 H12.
  - exact H12.
  - constructor; apply IH, H12.
  - inversion H12; subst.
    + constructor; apply IH; assumption.
    + constructor; apply IH; assumption.
Qed.

Lemma sublist_In {A} (l1 l2 : list A) (x : A) :
  sublist l1 l2 -> In x l1 -> In x l2.
Proof.
  induction 1 as [|y l1 l2 H IH|y l1 l2 H IH]; cbn; [tauto|auto|].
  intros [<-|Hx]; [left; reflexivity|right; auto].
Qed.

Lemma search_by_barcode_sublist (code : string) (df : list row) :
  sublist (search_by_barcode code df) df.
Proof.
  unfold search_by_barcode.
  destruct (String.eqb _ _); [apply sublist_nil_l|apply sublist_filter].
Qed.

Lemma search_by_name_sublist RF sc WR query df limit :
  sublist (search_by_name RF sc WR query df limit) df.
Proof.
  unfold search_by_name.
  destruct (String.eqb _ _); [apply sublist_nil_l|].
  destruct (_ || _); [|apply sublist_filter].
  unfold df_head; destruct (0 <=? limit);
    eapply sublist_trans; (apply sublist_firstn || apply sublist_filter).
Qed.

Lemma first_index_Some {A} (f : A -> bool) (l : list A) (i : nat) :
  first_index f l = Some i -> exists x, nth_error l i = Some x /\ f x = true.
Proof.
  revert i; induction l as [|x l IH]; intros i; cbn; [discriminate|].
  destruct (f x) eqn:Ef.
  - intros [= <-]; exists x; auto.
  - destruct (first_index f l) as [j|]; [|discriminate].
    intros [= <-]; apply IH; reflexivity.
Qed.

Lemma first_index_In {A} (f : A -> bool) (l : list A) (x : A) :
  In x l -> f x = true -> exists i, first_index f l = Some i.
Proof.
  induction l as [|y l IH]; cbn; [tauto|].
  intros Hx Hf; destruct (f y) eqn:Ey; [eexists; reflexivity|].
  destruct Hx as [<-|Hx]; [congruence|].
  destruct (IH Hx Hf) as [i ->]; eexists; reflexivity.
Qed.

(** The first row of the barcode mask is the row [first_index] finds. *)
Lemma filter_rows_first (f : product -> bool) (ps : list product) (i : nat) (p : product) :
  first_index f ps = Some i -> nth_error ps i = Some p ->
  exists rest, filter (fun r => f (row_p r)) (rows_of ps) = mkRow p None :: rest.
Proof.
  revert i; induction ps as [|q ps IH]; intros i; cbn; [discriminate|].
  destruct (f q) eqn:Eq.
  - intros [= <-] [= <-]; eexists; reflexivity.
  - destruct (first_index f ps) as [j|] eqn:Ej; [|discriminate].
    intros [= <-] Hp; exact (IH j eq_refl Hp).
Qed.


Lemma update_nth_length {A} (i : nat) (f : A -> A) (l : list A) :
  length (update_nth i f l) = length l.
Proof.
  revert i; induction l as [|x l IH]; intros [|i]; cbn; auto.
Qed.

Lemma nth_error_update_nth_other {A} (i j : nat) (f : A -> A) (l : list A) :
  j <> i -> nth_error (update_nth i f l) j = nth_error l j.
Proof.
  revert i j; induction l as [|x l IH]; intros [|i] [|j] Hij; cbn;
    try reflexivity; try congruence.
  apply IH; congruence.
Qed.

Lemma rows_update (i : nat) (f : row -> row) (ps : list product) :
  map row_p (update_nth i f (rows_of ps)) =
  update_nth i (fun p => row_p (f (mkRow p None))) ps.
Proof.
  revert i; induction ps as [|p ps IH]; intros [|i]; cbn; try reflexivity.
  - f_equal; apply row_p_rows.
  - f_equal; apply IH.
Qed.



(** A checkout loop that has already failed cannot report success, and the
    only exception it raises is the one of [df.at[i]]. *)
Lemma checkout_loop_failed cart : forall messages w,
  match checkout_loop cart false messages w with
  | Ok r _ => fst r = false
  | Exc e _ => e = at_error
  end.
Proof.
  induction cart as [|it rest IH]; intros messages w; cbn [checkout_loop]; unfold bind.
  - reflexivity.
  - rewrite update_stock_by_barcode_eq.
    destruct (first_index _ _); [reflexivity|apply IH].
Qed.

Lemma checkout_loop_nonempty it rest : forall success messages w,
  match checkout_loop (it :: rest) success messages w with
  | Ok r _ => fst r = false
  | Exc e _ => e = at_error
  end.
Proof.
  intros success messages w; cbn [checkout_loop]; unfold bind.
  rewrite update_stock_by_barcode_eq.
  destruct (first_index _ _); [reflexivity|apply checkout_loop_failed].
Qed.

Lemma checkout_loop_all_missing cart : forall success messages w,
  Forall (fun it => Forall (fun p => barcode p <> it_barcode it) (w_products w)) cart ->
  checkout_loop cart success messages w =
  Ok (match cart with [] => success | _ => false end,
      app messages (map (fun it => fail_message it msg_not_found) cart)) w.
Proof.
  induction cart as [|it rest IH]; intros success messages w Hall.
  - cbn; rewrite app_nil_r; reflexivity.
  - inversion Hall as [|? ? Hit Hrest]; subst.
    cbn [checkout_loop]; unfold bind.
    rewrite update_stock_by_barcode_eq, first_index_absent by exact Hit.
    cbn [fst snd negb]; rewrite IH by exact Hrest.
    rewrite <- app_assoc; destruct rest; reflexivity.
Qed.

(** The checkout loop changes nothing unless it raises; it raises at the
    first line whose barcode is in the catalog, after saving that line's
    decrement. *)
Lemma checkout_loop_outcome cart : forall success messages w,
  match checkout_loop cart success messages w with
  | Ok _ w' => w' = w /\ Forall (line_missing (w_products w)) cart
  | Exc e w' =>
      e = at_error /\
      exists pre it post i,
        cart = app pre (it :: post) /\
        Forall (line_missing (w_products w)) pre /\
        first_index (fun p => String.eqb (barcode p) (it_barcode it)) (w_products w)
          = Some i /\
        w_products w' =
          update_nth i (fun p => with_stock p (stock_at (w_products w) i + - it_qty it))
                     (w_products w) /\
        w_transactions w' = w_transactions w /\
        w_stock_log w' = w_stock_log w /\ w_cart w' = w_cart w
  end.
Proof.
  induction cart as [|it rest IH]; intros success messages w;
    cbn [checkout_loop]; unfold bind.
  - split; [reflexivity|constructor].
  - rewrite update_stock_by_barcode_eq.
    destruct (first_index _ _) as [i|] eqn:Ei.
    + split; [reflexivity|].
      exists [], it, rest, i; cbn.
      repeat split; auto.
    + cbn [fst snd].
      specialize (IH false (app messages [fail_message it msg_not_found]) w).
      destruct (checkout_loop rest false _ w) as [r w'|e w'].
      * destruct IH as [-> H]; split; [reflexivity|constructor; assumption].
      * destruct IH as [He (pre & it' & post & j & Hc & Hpre & Hrest)].
        split; [exact He|].
        exists (it :: pre), it', post, j.
        split; [cbn; rewrite Hc; reflexivity|].
        split; [constructor; assumption|exact Hrest].
Qed.

Lemma stock_form_eq RF sc WR action barcode0 name0 qty operator note w :
  stock_form RF sc WR action barcode0 name0 qty operator note w =
  match stock_lookup RF sc WR barcode0 name0 (rows_of (w_products w)) with
  | [] => Ok None w
  | r :: _ =>
      match update_stock_by_barcode (barcode (row_p r)) (fst (stock_delta action qty))
              operator (snd (stock_delta action qty)) note w with
      | Ok res w' => Ok (Some res) w'
      | Exc e w' => Exc e w'
      end
  end.
Proof.
  unfold stock_form, bind, load_products, gets; fold (rows_of (w_products w)).
  destruct (stock_lookup _ _ _ _ _ _); reflexivity.
Qed.

Lemma stock_lookup_sublist RF sc WR barcode0 name0 df :
  sublist (stock_lookup RF sc WR barcode0 name0 df) df.
Proof.
  unfold stock_lookup.
  destruct (negb (String.eqb (py_strip barcode0) "")).
  - destruct (search_by_barcode barcode0 df) as [|r l] eqn:E.
    + destruct (negb _); [apply search_by_name_sublist|apply sublist_nil_l].
    + rewrite <- E; apply search_by_barcode_sublist.
  - destruct (negb _); [apply search_by_name_sublist|apply sublist_nil_l].
Qed.

Lemma add_to_cart_eq RF sc WR input qty w :
  add_to_cart RF sc WR input qty w =
  if negb (String.eqb (py_strip input) "") then
    match cart_lookup RF sc WR input (rows_of (w_products w)) with
    | None => Ok false w
    | Some r => Exc scan_input_error
                      (set_cart (app (w_cart w) [cart_item_of (row_p r) qty]) w)
    end
  else Ok false w.
Proof.
  unfold add_to_cart, bind, load_products, gets; fold (rows_of (w_products w)).
  destruct (negb _); [|reflexivity].
  destruct (cart_lookup _ _ _ _ _); reflexivity.
Qed.

(** *** Workbook *)

(** X1: [detect_product_sheet] picks ["products"] whenever the workbook has
    it, ["商品信息"] only when it lacks ["products"], otherwise the first
    sheet; an unreadable or sheetless workbook gives ["products"].  The
    sheet it names is one of the workbook's whenever there is one. *)
Theorem detect_product_sheet_choice (names : list string) :
  detect_product_sheet None = "products" /\
  detect_product_sheet (Some []) = "products" /\
  (In "products" names -> detect_product_sheet (Some names) = "products") /\
  (~ In "products" names -> In "商品信息" names ->
   detect_product_sheet (Some names) = "商品信息") /\
  (~ In "products" names -> ~ In "商品信息" names ->
   detect_product_sheet (Some names) = hd "products" names) /\
  (names <> [] -> In (detect_product_sheet (Some names)) names).
Proof.
  assert (Hex : forall c, existsb (String.eqb c) names = true <-> In c names).
  { intros c; rewrite existsb_exists; split.
    - intros (x & Hx & E); apply String.eqb_eq in E; subst; exact Hx.
    - intros Hc; exists c; split; [exact Hc|apply String.eqb_refl]. }
  unfold detect_product_sheet, PRODUCT_SHEET_PREFERRED; cbn [find].
  split; [reflexivity|split; [reflexivity|]].
  destruct (existsb (String.eqb "products") names) eqn:Ep.
  - apply Hex in Ep.
    split; [reflexivity|split; [tauto|split; [tauto|intros _; exact Ep]]].
  - assert (Np : ~ In "products" names) by (rewrite <- Hex, Ep; discriminate).
    destruct (existsb (String.eqb "商品信息") names) eqn:Ec.
    + apply Hex in Ec.
      split; [tauto|split; [reflexivity|split; [tauto|intros _; exact Ec]]].
    + assert (Nc : ~ In "商品信息" names) by (rewrite <- Hex, Ec; discriminate).
      split; [tauto|split; [tauto|split]].
      * intros _ _; destruct names; reflexivity.
      * destruct names as [|s l]; [congruence|intros _; left; reflexivity].
Qed.

(** *** Lookups *)

(** X2: both lookups return rows of the catalog, in catalog order: the
    result is a subsequence of [products_df], whatever the query, limit,
    scorer or availability of rapidfuzz. *)
Theorem lookups_return_subsequence RF sc WR (query code : string) (df : list row)
    (limit : Z) :
  sublist (search_by_barcode code df) df /\
  sublist (search_by_name RF sc WR query df limit) df.
Proof.
  split; [apply search_by_barcode_sublist|apply search_by_name_sublist].
Qed.

(** X3: when the substring match is used (rapidfuzz is missing, or some
    name contains the stripped query), [search_by_name] with a limit
    [>= 0] returns at most [limit] rows, each of whose names contains the
    query. *)
Theorem search_by_name_substring_limit RF sc WR (query : string) (df : list row)
    (limit : Z) (Hlim : 0 <= limit)
    (Hpath : RF = false \/
             Exists (fun r => sc (py_strip query) (name_str (name (row_p r))) = true) df) :
  (length (search_by_name RF sc WR query df limit) <= Z.to_nat limit)%nat /\
  Forall (fun r => sc (py_strip query) (name_str (name (row_p r))) = true)
         (search_by_name RF sc WR query df limit).
Proof.
  unfold search_by_name.
  destruct (String.eqb (py_strip query) ""); [cbn; split; [lia|constructor]|].
  set (subs := filter (fun r => sc (py_strip query) (name_str (name (row_p r)))) df).
  assert (Hsub : Forall (fun r => sc (py_strip query) (name_str (name (row_p r))) = true) subs).
  { apply Forall_forall; intros r Hr; apply filter_In in Hr; apply Hr. }
  replace ((1 <=? Z.of_nat (length subs)) || negb RF) with true.
  - unfold df_head; replace (0 <=? limit) with true by (symmetry; apply Z.leb_le; exact Hlim).
    split; [apply firstn_le_length|].
    apply Forall_forall; intros r Hr.
    apply (Forall_forall _ subs) with (x := r) in Hsub; [exact Hsub|].
    exact (sublist_In _ _ _ (sublist_firstn _ _) Hr).
  - destruct Hpath as [-> | Hex]; [symmetry; apply orb_true_r|].
    apply Exists_exists in Hex as (r & Hr & Hc).
    assert (Hin : In r subs) by (apply filter_In; auto).
    destruct subs as [|r0 l]; [destruct Hin|].
    cbn [length]; symmetry; apply orb_true_intro; left; apply Z.leb_le; lia.
Qed.

Lemma search_by_name_substring_limit_witness :
  0 <= 1 /\
  (length (search_by_name false ci_contains (fun _ _ => 0%Z) "apple"
             (rows_of [apple_loose; apple_boxed; water]) 1) <= Z.to_nat 1)%nat.
Proof.
  split; [lia|].
  apply (search_by_name_substring_limit false ci_contains (fun _ _ => 0%Z) "apple"
           (rows_of [apple_loose; apple_boxed; water]) 1); [lia|left; reflexivity].
Defined.

(** *** Catalog editor and lookups together *)



(** X5: after deleting a barcode (given without surrounding whitespace), a
    barcode lookup for it finds nothing. *)
Theorem delete_product_then_search_by_barcode (e : string) (w : world)
    (He : py_strip e = e) :
  search_by_barcode e (rows_of (w_products (final_world (delete_product e w)))) = [].
Proof.
  rewrite delete_product_eq; cbn [final_world set_products w_products].
  unfold search_by_barcode; rewrite He.
  destruct (String.eqb e ""); [reflexivity|].
  induction (w_products w) as [|p ps IH]; cbn; [reflexivity|].
  destruct (String.eqb_spec (barcode p) e) as [E|E]; cbn; [exact IH|].
  destruct (String.eqb_spec (barcode p) e); [contradiction|exact IH].
Qed.

Lemma delete_product_then_search_by_barcode_witness :
  py_strip "6901234567890" = "6901234567890" /\
  search_by_barcode "6901234567890"
    (rows_of (w_products (final_world
       (delete_product "6901234567890" (world_of [water; water_dup; noodles] []))))) = [].
Proof.
  assert (Hs : py_strip "6901234567890" = "6901234567890") by (vm_compute; reflexivity).
  split; [exact Hs|].
  exact (delete_product_then_search_by_barcode "6901234567890"
           (world_of [water; water_dup; noodles] []) Hs).
Defined.

(** X6: the "save changes" button of the edit form.  When no row has the
    barcode it returns [False] and changes nothing.  Otherwise it rewrites
    only the first row with that barcode, which keeps its id and barcode
    and takes the new name, price and stock; it writes one [adjust_manual]
    stock-log entry (before = old stock, after = new stock, change = their
    difference) exactly when the stock changed, and no transaction. *)
Theorem update_product_edits_first_match e_barcode name2 category2 price2
    purchase_price2 bulk_price2 bulk_quantity2 location2 stock2 notes2 w :
  match first_index (fun p => String.eqb (barcode p) e_barcode) (w_products w) with
  | None =>
      update_product e_barcode name2 category2 price2 purchase_price2 bulk_price2
                     bulk_quantity2 location2 stock2 notes2 w = Ok false w
  | Some i =>
      exists p, nth_error (w_products w) i = Some p /\
      match update_product e_barcode name2 category2 price2 purchase_price2
              bulk_price2 bulk_quantity2 location2 stock2 notes2 w with
      | Ok true w' =>
          length (w_products w') = length (w_products w) /\
          (forall j, j <> i -> nth_error (w_products w') j = nth_error (w_products w) j) /\
          (exists p', nth_error (w_products w') i = Some p' /\
                      id p' = id p /\ barcode p' = barcode p /\ barcode p = e_barcode /\
                      name p' = Some name2 /\ price p' = price2 /\ stock p' = stock2) /\
          w_stock_log w' =
            app (w_stock_log w)
                (if stock p =? stock2 then []
                 else [mkLog (w_uuid_gen w (w_uuid_next w)) (w_now w) e_barcode
                             (Some name2) (stock2 - stock p) (stock p) stock2
                             "adjust_manual" op_edit note_manual]) /\
          w_transactions w' = w_transactions w
      | _ => False
      end
  end.
Proof.
  unfold update_product; unfold_M; cbn.
  fold (rows_of (w_products w)); rewrite first_index_rows.
  destruct (first_index _ (w_products w)) as [i|] eqn:Ei; [|reflexivity].
  destruct (first_index_Some _ _ _ Ei) as (p & Hp & Hb).
  apply String.eqb_eq in Hb.
  exists p; split; [exact Hp|].
  rewrite nth_error_rows, Hp; cbn.
  rewrite rows_update.
  set (f := fun q => row_p (edit_row name2 category2 price2 purchase_price2 bulk_price2
                                     bulk_quantity2 location2 stock2 notes2 (mkRow q None))).
  assert (Hcore :
    length (update_nth i f (w_products w)) = length (w_products w) /\
    (forall j, j <> i -> nth_error (update_nth i f (w_products w)) j = nth_error (w_products w) j) /\
    (exists p', nth_error (update_nth i f (w_products w)) i = Some p' /\
                id p' = id p /\ barcode p' = barcode p /\ barcode p = e_barcode /\
                name p' = Some name2 /\ price p' = price2 /\ stock p' = stock2)).
  { split; [apply update_nth_length|split; [intros j Hj; apply nth_error_update_nth_other, Hj|]].
    exists (f p); rewrite nth_error_update_nth_same, Hp.
    split; [reflexivity|]; cbn; repeat split; exact Hb. }
  destruct Hcore as (Hl & Ho & Hi).
  destruct (stock p =? stock2); cbn;
    (split; [exact Hl|split; [exact Ho|split; [exact Hi|split; [|reflexivity]]]]);
    [rewrite app_nil_r|]; reflexivity.
Qed.

(** *** Stock Mutator and its callers *)

(** X7: [update_stock_by_barcode] never reports success and never writes a
    stock-log entry.  When no row has the barcode it returns
    [(False, "未找到条码对应商品")] with nothing changed.  Otherwise the first
    row with the barcode has its stock saved as before + delta, and then the
    call raises the [TypeError] of [df.at[i]]; the stock log, the
    transactions and the cart are untouched. *)
Theorem update_stock_by_barcode_never_succeeds code delta operator typ note w :
  match first_index (fun p => String.eqb (barcode p) code) (w_products w) with
  | None =>
      update_stock_by_barcode code delta operator typ note w =
      Ok (false, msg_not_found) w
  | Some i =>
      exists w',
        update_stock_by_barcode code delta operator typ note w = Exc at_error w' /\
        w_products w' =
          update_nth i (fun p => with_stock p (stock_at (w_products w) i + delta))
                     (w_products w) /\
        w_stock_log w' = w_stock_log w /\
        w_transactions w' = w_transactions w /\ w_cart w' = w_cart w
  end.
Proof.
  rewrite update_stock_by_barcode_eq.
  destruct (first_index _ _) as [i|]; [|reflexivity].
  eexists; split; [reflexivity|]; cbn; auto.
Qed.

(** X8: the warehouse form ("入库 / 出库 / 库存调整"), on the inputs that do
    not reach the name search.  With both fields blank it reports "未找到商品"
    and changes nothing.  When the stripped barcode field is the barcode of
    some product, the first product with that barcode has its stock saved
    as before + delta (+qty for 入库 and 库存调整, -qty for 出库), and the
    call raises the [TypeError] of [df.at[i]] with no stock-log entry; the
    transactions and the cart are untouched. *)
Theorem stock_form_outcome RF sc WR action barcode0 name0 qty operator note w :
  (py_strip barcode0 = "" -> py_strip name0 = "" ->
   stock_form RF sc WR action barcode0 name0 qty operator note w = Ok None w) /\
  (forall i, py_strip barcode0 <> "" ->
     first_index (fun p => String.eqb (barcode p) (py_strip barcode0)) (w_products w)
       = Some i ->
     exists w',
       stock_form RF sc WR action barcode0 name0 qty operator note w = Exc at_error w' /\
       w_products w' =
         update_nth i (fun p => with_stock p (stock_at (w_products w) i +
                                              fst (stock_delta action qty)))
                    (w_products w) /\
       w_stock_log w' = w_stock_log w /\
       w_transactions w' = w_transactions w /\ w_cart w' = w_cart w).
Proof.
  rewrite stock_form_eq; unfold stock_lookup.
  split; [intros Hb Hn; rewrite Hb, Hn; reflexivity|].
  intros i Hb Ei.
  destruct (first_index_Some _ _ _ Ei) as (p & Hp & Hf).
  apply String.eqb_eq in Hf.
  destruct (String.eqb_spec (py_strip barcode0) "") as [E|_]; [contradiction|].
  cbn [negb]; unfold search_by_barcode.
  destruct (String.eqb_spec (py_strip barcode0) "") as [E|_]; [contradiction|].
  destruct (filter_rows_first _ _ _ _ Ei Hp) as [rest ->].
  cbn [row_p]; rewrite Hf, update_stock_by_barcode_eq, Ei.
  eexists; split; [reflexivity|]; cbn; auto.
Qed.

(** *** POS page *)

(** X9: the "add to cart" button, on the inputs that do not reach the
    name search.  A blank input adds nothing and changes nothing.  When the
    stripped input is the barcode of some product, the line built from the
    first product with that barcode is appended to the end of the cart, and
    then clearing the input field raises [StreamlitAPIException]: the cart
    keeps the new line, nothing else changes, and the input is not cleared. *)
Theorem add_to_cart_by_barcode_raises RF sc WR (input : string) (qty : Z) (w : world) :
  (py_strip input = "" -> add_to_cart RF sc WR input qty w = Ok false w) /\
  (forall i p, py_strip input <> "" ->
     first_index (fun q => String.eqb (barcode q) (py_strip input)) (w_products w) = Some i ->
     nth_error (w_products w) i = Some p ->
     add_to_cart RF sc WR input qty w =
     Exc scan_input_error (set_cart (app (w_cart w) [cart_item_of p qty]) w)).
Proof.
  rewrite add_to_cart_eq.
  split; [intros ->; reflexivity|].
  intros i p Hb Ei Hp.
  destruct (String.eqb_spec (py_strip input) "") as [E|_]; [contradiction|].
  cbn [negb]; unfold cart_lookup, search_by_barcode.
  destruct (String.eqb_spec (py_strip input) "") as [E|_]; [contradiction|].
  destruct (filter_rows_first _ _ _ _ Ei Hp) as [rest ->]; reflexivity.
Qed.

(** X10: checkout of a non-empty cart never completes.  Either it reports
    failure, and then no line's barcode is in the catalog and nothing has
    changed; or it raises the [TypeError] of [df.at[i]] at the first line
    whose barcode is in the catalog, after saving that line's decrement on
    the first product with its barcode (the lines before it are all
    missing from the catalog).  In both cases no transaction or stock-log
    entry is appended and the cart is kept. *)
Theorem checkout_nonempty_never_completes (total_amount paid_amount : float) (w : world)
    (Hcart : w_cart w <> []) :
  match checkout total_amount paid_amount w with
  | Ok (Completed _) _ => False
  | Ok (PartiallyFailed _) w' => w' = w /\ Forall (line_missing (w_products w)) (w_cart w)
  | Exc e w' =>
      e = at_error /\
      exists pre it post i,
        w_cart w = app pre (it :: post) /\
        Forall (line_missing (w_products w)) pre /\
        first_index (fun p => String.eqb (barcode p) (it_barcode it)) (w_products w)
          = Some i /\
        w_products w' =
          update_nth i (fun p => with_stock p (stock_at (w_products w) i + - it_qty it))
                     (w_products w) /\
        w_transactions w' = w_transactions w /\
        w_stock_log w' = w_stock_log w /\ w_cart w' = w_cart w
  end.
Proof.
  unfold checkout, bind, gets.
  pose proof (checkout_loop_outcome (w_cart w) true [] w) as Ho.
  assert (Hn : match checkout_loop (w_cart w) true [] w with
               | Ok r _ => fst r = false
               | Exc _ _ => True
               end).
  { destruct (w_cart w) as [|it rest]; [congruence|].
    pose proof (checkout_loop_nonempty it rest true [] w) as H.
    destruct (checkout_loop (it :: rest) true [] w); [exact H|exact I]. }
  destruct (checkout_loop (w_cart w) true [] w) as [[ok msgs] w1|e w1].
  - cbn in Hn; subst ok; cbn; exact Ho.
  - exact Ho.
Qed.

Lemma checkout_nonempty_never_completes_witness :
  w_cart (world_of [water] [water_x2]) <> [] /\
  match checkout 5%float 10%float (world_of [water] [water_x2]) with
  | Ok (Completed _) _ => False
  | _ => True
  end.
Proof.
  assert (Hc : w_cart (world_of [water] [water_x2]) <> []) by discriminate.
  split; [exact Hc|].
  pose proof (checkout_nonempty_never_completes 5%float 10%float
                (world_of [water] [water_x2]) Hc) as H.
  destruct (checkout _ _ _) as [[t|m] w'|e w']; [exact H|exact I|exact I].
Defined.

(** X11: when no line of a non-empty cart has its barcode in the catalog,
    checkout changes nothing and reports one ["name: 未找到条码对应商品"]
    message per line, in cart order. *)
Theorem checkout_all_lines_missing (total_amount paid_amount : float) (w : world)
    (Hcart : w_cart w <> [])
    (Hmiss : Forall (fun it => Forall (fun p => barcode p <> it_barcode it) (w_products w))
                    (w_cart w)) :
  checkout total_amount paid_amount w =
  Ok (PartiallyFailed (map (fun it => fail_message it msg_not_found) (w_cart w))) w.
Proof.
  unfold checkout, bind, gets.
  rewrite checkout_loop_all_missing by exact Hmiss.
  destruct (w_cart w); [congruence|reflexivity].
Qed.

Lemma checkout_all_lines_missing_witness :
  checkout 6%float 6%float (world_of [water] [ghost_x1; ghost_x1]) =
  Ok (PartiallyFailed [fail_message ghost_x1 msg_not_found;
                       fail_message ghost_x1 msg_not_found])
     (world_of [water] [ghost_x1; ghost_x1]).
Proof.
  apply (checkout_all_lines_missing 6%float 6%float (world_of [water] [ghost_x1; ghost_x1])).
  - discriminate.
  - repeat constructor; cbn; discriminate.
Defined.

(** X12: the recent-transaction tables ([tx.tail(n).iloc[::-1]]) list the
    last [n] transactions, newest first; a transaction just appended heads
    the table. *)
Theorem recent_view_newest_first (n : nat) (t : transaction) (w : world) :
  recent_view n (w_transactions w) = firstn n (rev (w_transactions w)) /\
  recent_view (S n) (w_transactions (final_world (append_transaction t w))) =
  t :: recent_view n (w_transactions w).
Proof.
  unfold recent_view, df_tail.
  rewrite <- !firstn_rev; split; [reflexivity|].
  cbn [final_world append_transaction modify w_transactions set_transactions].
  rewrite rev_app_distr; reflexivity.
Qed.

(** *** Catalog Store on the sheet *)

Module CatalogStoreProofs.
Import CatalogLoad CatalogSave CatalogLoadProofs.

Lemma normalized_chinese (col : string -> list raw_cell) (n : nat) :
  normalized (mkSheet (map (fun zh => (zh, col zh)) CHINESE_HEADERS_ORDER) n) =
  app (map (fun kv => (snd kv, map of_raw (col (fst kv)))) COLUMN_MAP)
      [("expiry_date", repeat CNone n)].
Proof. reflexivity. Qed.

Lemma get_col_column_map (g : string * string -> list cell) (t : frame) kv :
  In kv COLUMN_MAP ->
  get_col (snd kv) (app (map (fun kv => (snd kv, g kv)) COLUMN_MAP) t) = g kv.
Proof.
  unfold COLUMN_MAP; intros Hin.
  repeat (destruct Hin as [<-|Hin]; [reflexivity|]); destruct Hin.
Qed.

Lemma column_map_fst_snd :
  forallb (fun kv1 => forallb (fun kv2 =>
             Bool.eqb (String.eqb (fst kv1) (fst kv2)) (String.eqb (snd kv1) (snd kv2)))
           COLUMN_MAP) COLUMN_MAP = true.
Proof. vm_compute; reflexivity. Qed.

Lemma rename_rev_eqb (x : string) kv :
  In kv COLUMN_MAP -> ~ In x CHINESE_HEADERS_ORDER ->
  String.eqb (rename_rev x) (fst kv) = String.eqb x (snd kv).
Proof.
  intros Hkv Hx; unfold rename_rev.
  destruct (find (fun kv' => String.eqb (fst kv') x) REVERSE_COLUMN_MAP)
    as [[e' zh']|] eqn:F.
  - apply find_some in F as [Hin He]; cbn in He; apply String.eqb_eq in He; subst e'.
    unfold REVERSE_COLUMN_MAP in Hin; apply in_map_iff in Hin as ([zh x'] & Heq & Hin).
    cbn in Heq; injection Heq as -> ->.
    pose proof column_map_fst_snd as H.
    rewrite forallb_forall in H; specialize (H _ Hin).
    rewrite forallb_forall in H; specialize (H _ Hkv).
    apply Bool.eqb_prop in H; exact H.
  - assert (Hne : x <> snd kv).
    { intros ->.
      pose proof (find_none _ _ F (snd kv, fst kv)
                    (in_map (fun kv => (snd kv, fst kv)) _ _ Hkv)) as H.
      cbn in H; rewrite String.eqb_refl in H; discriminate. }
    assert (Hnz : x <> fst kv).
    { intros ->; apply Hx, (in_map fst), Hkv. }
    destruct (String.eqb_spec x (fst kv)); [contradiction|].
    destruct (String.eqb_spec x (snd kv)); [contradiction|reflexivity].
Qed.

Lemma col_renamed (df : frame) kv :
  In kv COLUMN_MAP -> Forall (fun c => ~ In c CHINESE_HEADERS_ORDER) (map fst df) ->
  let df1 := map (fun kv' => (rename_rev (fst kv'), snd kv')) df in
  has_col (fst kv) df1 = has_col (snd kv) df /\ get_col (fst kv) df1 = get_col (snd kv) df.
Proof.
  intros Hkv; induction df as [|[c v] df IH]; intros Hall; cbn; [auto|].
  inversion Hall as [|? ? Hc Hrest]; subst.
  destruct (IH Hrest) as [Hh Hg].
  rewrite String.eqb_sym, (rename_rev_eqb c kv Hkv Hc), (String.eqb_sym c).
  rewrite Hh, Hg; auto.
Qed.

(** What [save_products] writes, renamed back by [load_products]: exactly
    the 14 internal columns and [expiry_date]; each internal column holds
    the saved column's cells (all empty when the frame lacked it). *)
Lemma normalized_saved_sheet (write_cell : cell -> raw_cell) (nrows : nat) (df : frame)
    (Hen : Forall (fun c => ~ In c CHINESE_HEADERS_ORDER) (map fst df)) :
  let sh := saved_sheet write_cell nrows df in
  map fst (normalized sh) = app ENGLISH_HEADERS_ORDER ["expiry_date"] /\
  (forall c, In c ENGLISH_HEADERS_ORDER ->
     get_col c (normalized sh) =
     map of_raw (if has_col c df then map write_cell (get_col c df)
                 else repeat RNaN nrows)) /\
  get_col "expiry_date" (normalized sh) = repeat CNone nrows.
Proof.
  cbv zeta; unfold saved_sheet; rewrite normalized_chinese.
  split; [reflexivity|split; [|reflexivity]].
  intros c Hc; unfold ENGLISH_HEADERS_ORDER in Hc.
  apply in_map_iff in Hc as (kv & <- & Hkv).
  rewrite (get_col_column_map
             (fun kv => map of_raw
                (let df1 := map (fun kv' => (rename_rev (fst kv'), snd kv')) df in
                 if has_col (fst kv) df1 then map write_cell (get_col (fst kv) df1)
                 else repeat RNaN nrows)) _ kv Hkv).
  cbv zeta; destruct (col_renamed df kv Hkv Hen) as [-> ->]; reflexivity.
Qed.

Lemma labels_set_col (c : string) (v : list cell) (df : frame) :
  has_col c df = true -> map fst (set_col c v df) = map fst df.
Proof.
  induction df as [|[c0 v0] df IH]; cbn; [discriminate|].
  destruct (String.eqb_spec c c0) as [->|_]; cbn; [reflexivity|].
  intros H; rewrite IH by exact H; reflexivity.
Qed.

Lemma labels_process (tn : string -> float) (sh : raw_sheet) :
  map fst (process tn sh) = map fst (normalized sh).
Proof.
  unfold process; cbn [fold_left].
  repeat (rewrite labels_set_col;
          [|repeat rewrite has_set_col; rewrite normalized_has;
            [reflexivity|cbn; tauto]]).
  reflexivity.
Qed.

(** X13: a catalog saved by [save_products] and loaded again by
    [load_products] (the frame's labels distinct and internal, and its
    stock column filled, so no row of the sheet is empty) comes back with
    exactly the 14 internal columns and [expiry_date], in the order of
    [COLUMN_MAP]; every other column of the frame is dropped.  The text
    columns hold the saved cells, [barcode] and [id] the saved text (empty
    text for an empty cell), a column the frame lacked comes back empty, and
    [expiry_date] is always empty.  Nothing is written by the load. *)
Theorem save_then_load_products (tn : string -> float) (id1 id2 : string)
    (write_cell : cell -> raw_cell) (nrows : nat) (df : frame) (writable : bool)
    (Hnd : NoDup (map fst df))
    (Hen : Forall (fun c => ~ In c CHINESE_HEADERS_ORDER) (map fst df))
    (Hstock : has_col "stock" df = true /\ length (get_col "stock" df) = nrows /\
              Forall (fun c => write_cell c <> RNaN) (get_col "stock" df)) :
  let f := mkFs (Some (Some (saved_sheet write_cell nrows df))) writable in
  let saved c := if has_col c df then map write_cell (get_col c df)
                 else repeat RNaN nrows in
  match load_products tn id1 id2 f with
  | (Ret cat, f') =>
      f' = f /\
      map fst cat = app ENGLISH_HEADERS_ORDER ["expiry_date"] /\
      (forall c, In c TEXT_COLUMNS -> get_col c cat = map of_raw (saved c)) /\
      (forall c, In c ["barcode"; "id"] ->
         get_col c cat = map fill_str (map of_raw (saved c))) /\
      get_col "expiry_date" cat = repeat CNone nrows
  | (Raise _, _) => False
  end.
Proof.
  cbv zeta; unfold load_products, ensure_inventory_file; cbn [fs_file].
  destruct (normalized_saved_sheet write_cell nrows df Hen) as (Hl & Hc & He).
  cbv zeta in Hl, Hc, He.
  split; [reflexivity|].
  split; [rewrite labels_process; exact Hl|].
  split; [|split].
  - intros c Hin.
    assert (HE : In c ENGLISH_HEADERS_ORDER).
    { unfold TEXT_COLUMNS in Hin; cbn.
      repeat (destruct Hin as [<-|Hin]; [tauto|]); destruct Hin. }
    rewrite get_process, <- (Hc c HE).
    unfold TEXT_COLUMNS in Hin.
    repeat (destruct Hin as [<-|Hin]; [reflexivity|]); destruct Hin.
  - intros c Hin.
    assert (HE : In c ENGLISH_HEADERS_ORDER).
    { cbn; repeat (destruct Hin as [<-|Hin]; [tauto|]); destruct Hin. }
    rewrite get_process, <- (Hc c HE).
    repeat (destruct Hin as [<-|Hin]; [reflexivity|]); destruct Hin.
  - rewrite get_process; exact He.
Qed.

Lemma save_then_load_products_witness :
  NoDup (map fst [("stock", [CInt 5]); ("name", [CStr "tea"]); ("colour", [CStr "red"])]) /\
  Forall (fun c => ~ In c CHINESE_HEADERS_ORDER)
         (map fst [("stock", [CInt 5]); ("name", [CStr "tea"]); ("colour", [CStr "red"])]) /\
  match load_products py_to_numeric "id-1" "id-2"
          (mkFs (Some (Some (saved_sheet (fun c => match c with
                                                    | CStr s => RStr s
                                                    | CInt _ => RStr "5"
                                                    | _ => RNaN
                                                    end) 1
             [("stock", [CInt 5]); ("name", [CStr "tea"]); ("colour", [CStr "red"])])))
             true) with
  | (Ret cat, _) => get_col "expiry_date" cat = [CNone]
  | (Raise _, _) => False
  end.
Proof.
  assert (Hnd : NoDup (map fst [("stock", [CInt 5]); ("name", [CStr "tea"]);
                                ("colour", [CStr "red"])]))
    by (repeat constructor; cbn; intuition discriminate).
  assert (Hen : Forall (fun c => ~ In c CHINESE_HEADERS_ORDER)
                  (map fst [("stock", [CInt 5]); ("name", [CStr "tea"]);
                            ("colour", [CStr "red"])]))
    by (repeat constructor; vm_compute; intuition discriminate).
  split; [exact Hnd|split; [exact Hen|]].
  pose proof (save_then_load_products py_to_numeric "id-1" "id-2"
    (fun c => match c with CStr s => RStr s | CInt _ => RStr "5" | _ => RNaN end)
    1 _ true Hnd Hen) as H.
  cbv zeta in H.
  destruct (load_products _ _ _ _) as [[cat|e] f'].
  - refine (proj2 (proj2 (proj2 (proj2 (H _))))).
    split; [reflexivity|split; [reflexivity|]].
    repeat constructor; discriminate.
  - apply H; split; [reflexivity|split; [reflexivity|]].
    repeat constructor; discriminate.
Defined.

(** X14: on a first run (no [inventory.xlsx], writable directory),
    [load_products] creates the seed workbook and returns its two products
    with their barcodes, the fresh ids, stocks 50 and 30, bulk quantities 24
    and 20, prices 2.5 and 4.0, and no expiry date; a later run reads the
    file it wrote. *)
Theorem load_products_first_run (id1 id2 : string) :
  match load_products py_to_numeric id1 id2 (mkFs None true) with
  | (Ret df, f') =>
      fs_file f' = Some (Some (sample_sheet id1 id2)) /\
      get_col "id" df = [CStr id1; CStr id2] /\
      get_col "barcode" df = [CStr "6901234567890"; CStr "6909876543210"] /\
      get_col "stock" df = [CInt 50; CInt 30] /\
      get_col "bulk_quantity" df = [CInt 24; CInt 20] /\
      get_col "price" df = [CFloat 2.5; CFloat 4] /\
      get_col "expiry_date" df = [CNone; CNone] /\
      load_products py_to_numeric id1 id2 f' = (Ret df, f')
  | (Raise _, _) => False
  end.
Proof. vm_compute; repeat split. Qed.

End CatalogStoreProofs.
